(** * data_anonymizer: the redaction pipeline of [anonymizer_core.py]

    A shallow embedding of the module's three layers, leaf first:
    [_anonymize_text] (one string), [anonymize_dataframe] (the object
    columns of a frame) and [anonymize_file] (dispatch on the extension,
    Aadhaar normalisation, output).  The detection and redaction engines,
    the file loaders and the Unicode tables of the interpreter are not part
    of the module: they are the variables of [Section Anonymizer]. *)

From Stdlib Require Import List String Ascii NArith ZArith Bool Lia Arith.
From Stdlib Require Import Permutation.
From Stdlib Require Import DecimalString.
From Stdlib Require QArith.
Import ListNotations.

Set Implicit Arguments.

(** ** Python strings

    A [str] is a sequence of code points. *)

Definition text := list N.

(** An ASCII literal of the source as a [str]. *)
Definition lit (s : string) : text := map N_of_ascii (list_ascii_of_string s).

Fixpoint text_eqb (a b : text) : bool :=
  match a, b with
  | [], [] => true
  | x :: a', y :: b' => N.eqb x y && text_eqb a' b'
  | _, _ => false
  end.

(** The characters [str.strip()] removes and [str.isspace()] accepts:
    CPython's [_PyUnicode_IsWhitespace]. *)
Definition isspace (c : N) : bool :=
  ((9 <=? c) && (c <=? 13) || (28 <=? c) && (c <=? 32)
   || (c =? 133) || (c =? 160) || (c =? 5760)
   || (8192 <=? c) && (c <=? 8202)
   || (c =? 8232) || (c =? 8233) || (c =? 8239) || (c =? 8287)
   || (c =? 12288))%N.

Fixpoint lstrip (s : text) : text :=
  match s with
  | [] => []
  | c :: s' => if isspace c then lstrip s' else s
  end.

Definition rstrip (s : text) : text := rev (lstrip (rev s)).

(** [s.strip()] *)
Definition strip (s : text) : text := rstrip (lstrip s).

(** [s.split(sep)] for a one-character separator: never an empty list. *)
Fixpoint split (sep : N) (s : text) : list text :=
  match s with
  | [] => [[]]
  | c :: s' =>
      if N.eqb c sep then [] :: split sep s'
      else match split sep s' with
           | f :: fs => (c :: f) :: fs
           | [] => [[c]]
           end
  end.

(** [sep.join(parts)] *)
Fixpoint join (sep : text) (parts : list text) : text :=
  match parts with
  | [] => []
  | p :: ps =>
      match ps with
      | [] => p
      | _ :: _ => p ++ sep ++ join sep ps
      end
  end.

(** [s[a:b]] for offsets [0 <= a], [0 <= b] *)
Definition slice (s : text) (a b : nat) : text := firstn (b - a) (skipn a s).

Fixpoint starts_with (pre s : text) : bool :=
  match pre, s with
  | [], _ => true
  | x :: pre', y :: s' => N.eqb x y && starts_with pre' s'
  | _ :: _, [] => false
  end.

Fixpoint replace_from (old new : text) (skip : nat) (s : text) : text :=
  match s with
  | [] => []
  | c :: s' =>
      match skip with
      | S k => replace_from old new k s'
      | O =>
          if starts_with old s
          then new ++ replace_from old new (List.length old - 1) s'
          else c :: replace_from old new 0 s'
      end
  end.

(** [s.replace(old, new)] for a non-empty [old]: every occurrence, scanning
    from the left, occurrences do not overlap. *)
Definition replace (old new s : text) : text := replace_from old new 0 s.

Definition is_ascii (c : N) : bool := (c <? 128)%N.

Definition ascii_lower (c : N) : N :=
  if ((65 <=? c) && (c <=? 90))%N then (c + 32)%N else c.

(** ** Exceptions, results and values *)

Inductive exn : Type :=
| ValueError (msg : string)
| AttributeError (msg : string)
| OtherException (cls : string).

Inductive outcome (A : Type) : Type :=
| Ret (a : A)
| Raise (e : exn).
Arguments Ret {A} a.
Arguments Raise {A} e.

(** A Python object as far as this module looks at it: a [str], an [int],
    [None], or any other object (a float, a NaN, a date, an instance of a
    user class), of which only the outcome of [str(.)] matters.  What
    [__str__] raises is an instance of [Exception]; the signals that end the
    interpreter ([KeyboardInterrupt], [SystemExit]) are not modelled. *)
Inductive value : Type :=
| VStr (s : text)
| VInt (z : Z)
| VNone
| VObj (ident : nat) (str_of : outcome text).

(** [str(v)] *)
Definition py_str (v : value) : outcome text :=
  match v with
  | VStr s => Ret s
  | VInt z => Ret (lit (NilZero.string_of_int (Z.to_int z)))
  | VNone => Ret (lit "None")
  | VObj _ r => r
  end.

(** ** The engines' data (presidio)

    [RecognizerResult]: the span [text[start:end]] and its entity type; the
    confidence score is never read by this module. *)
Record RecognizerResult : Type := {
  entity_type : string;
  start : nat;
  end_ : nat
}.

(** [OperatorConfig(name, params)] for the operators the data model names:
    [OperatorConfig("hash", {"hash_type": h, "salt": s})],
    [OperatorConfig("replace", {"new_value": v})] and pass-through. *)
Inductive OperatorConfig : Type :=
| Hash (hash_type : string) (salt : option text)
| Replace (new_value : text)
| Keep.

(** The [entities=] argument of [analyzer.analyze]. *)
Definition ENTITIES : list string :=
  ["EMAIL_ADDRESS"; "PHONE_NUMBER"; "AADHAAR"; "PERSON";
   "PAN"; "IP_ADDRESS"; "BANK_ACCOUNT"; "CREDIT_CARD";
   "LOCATION"; "DATE_TIME"]%string.

Definition SALT : text := lit "xyz123".

(** The [operators=] dict of [anonymizer.anonymize], in source order. *)
Definition OPERATORS : list (string * OperatorConfig) :=
  [ ("EMAIL_ADDRESS", Hash "sha256" (Some SALT));
    ("PHONE_NUMBER", Hash "sha256" (Some SALT));
    ("AADHAAR", Hash "sha256" (Some SALT));
    ("PERSON", Hash "sha256" (Some SALT));
    ("PAN", Hash "sha256" (Some SALT));
    ("IP_ADDRESS", Hash "sha256" (Some SALT));
    ("BANK_ACCOUNT", Hash "sha256" (Some SALT));
    ("CREDIT_CARD", Hash "sha256" (Some SALT));
    ("DATE_TIME", Hash "sha256" (Some SALT));
    ("LOCATION", Hash "sha256" (Some SALT));
    ("DEFAULT", Replace (lit "[REDACTED]")) ]%string.

(** [operators.get(key)] *)
Fixpoint dict_get (key : string) (d : list (string * OperatorConfig))
  : option OperatorConfig :=
  match d with
  | [] => None
  | (k, v) :: d' => if String.eqb k key then Some v else dict_get key d'
  end.

(** Modelled from the spec: the operator the redaction engine applies to a
    span of entity type [ty] (the engine is not part of the repository).
    The type's own operator, else the [DEFAULT] one; a mapping with neither
    leaves the span as it is. *)
Definition operator_for (ops : list (string * OperatorConfig)) (ty : string)
  : OperatorConfig :=
  match dict_get ty ops with
  | Some o => o
  | None =>
      match dict_get "DEFAULT" ops with
      | Some o => o
      | None => Keep
      end
  end.

Fixpoint insert_desc (r : RecognizerResult) (l : list RecognizerResult)
  : list RecognizerResult :=
  match l with
  | [] => [r]
  | x :: l' => if start x <=? start r then r :: l else x :: insert_desc r l'
  end.

(** The spans from the last to the first. *)
Definition sort_desc (l : list RecognizerResult) : list RecognizerResult :=
  fold_right insert_desc [] l.

(** ** Frames (pandas) *)

Inductive dtype : Type := object | int64 | float64 | bool_ | datetime64.

Definition dtype_eqb (a b : dtype) : bool :=
  match a, b with
  | object, object | int64, int64 | float64, float64
  | bool_, bool_ | datetime64, datetime64 => true
  | _, _ => false
  end.

Record Series : Type := { dtype_of : dtype; values : list value }.

(** A [DataFrame]: the length of its index and its columns in order.  Text
    lives in [object] columns (pandas 1.x and 2.x). *)
Record DataFrame : Type := {
  nrows : nat;
  columns : list (text * Series)
}.

Definition labels (df : DataFrame) : list text := map fst (columns df).

(** [col in df.columns] *)
Definition has_column (df : DataFrame) (col : text) : bool :=
  existsb (text_eqb col) (labels df).

(** The columns [df[col]] selects. *)
Definition select (df : DataFrame) (col : text) : list Series :=
  map snd (filter (fun c => text_eqb (fst c) col) (columns df)).

(** [df[col].attr] for an attribute of a Series ([dtype], [str]): one
    column under the label is a Series; under a repeated label [df[col]] is
    a frame, which has no such attribute. *)
Definition getitem (df : DataFrame) (col : text) (attr : string)
  : outcome Series :=
  match select df col with
  | [s] => Ret s
  | [] => Raise (OtherException "KeyError")
  | _ :: _ :: _ =>
      Raise (AttributeError
               ("'DataFrame' object has no attribute '" ++ attr ++ "'"))
  end.

(** [df[col] = s]: in place where the label exists, a new last column
    where it does not. *)
Definition setitem (df : DataFrame) (col : text) (s : Series) : DataFrame :=
  if has_column df col
  then {| nrows := nrows df;
          columns := map (fun c => if text_eqb (fst c) col then (fst c, s) else c)
                         (columns df) |}
  else {| nrows := nrows df; columns := columns df ++ [(col, s)] |}.

(** [df.head()] *)
Definition head (df : DataFrame) : DataFrame :=
  {| nrows := Nat.min 5 (nrows df);
     columns := map (fun c => (fst c, {| dtype_of := dtype_of (snd c);
                                         values := firstn 5 (values (snd c)) |}))
                    (columns df) |}.

(** ** The world the module runs in *)

(** What the module prints or logs. *)
Inductive diag : Type :=
| ReadingFrom (path : text)
| ExtractedTextPreview
| Preview (chars : text)
| RunningAnonymization
| OriginalDataPreview
| AnonymizedDataPreview
| FramePreview (df : DataFrame)
| SavedTo (path : text)
| AnonymizingColumn (col : text).

(** What the module writes. *)
Inductive artifact : Type :=
| CsvFile (df : DataFrame)
| ExcelFile (df : DataFrame)
| TextFile (content : text).

(** The calls the module makes to the engines. *)
Inductive engine_call : Type :=
| Analyze (t : text) (language : string) (entities : list string)
| Anonymize (t : text) (results : list RecognizerResult)
            (operators : list (string * OperatorConfig)).

(** What [anonymize_file] returns. *)
Inductive file_result : Type :=
| Frame (df : DataFrame)
| Text (v : value).

(** The world of a run: the state of the interpreter outside this module
    (the loaded models, the clock, the random source), which the engines may
    read, what was printed, the files written, and the calls made to the
    engines. *)
Record world (process : Type) : Type := {
  proc : process;
  console : list diag;
  files : list (text * artifact);
  engine_log : list engine_call
}.

(** [if output_path:] *)
Definition truthy (p : option text) : bool :=
  match p with
  | Some (_ :: _) => true
  | _ => false
  end.

(** [page.extract_text() or ''] *)
Definition or_empty (t : option text) : text :=
  match t with
  | Some (c :: s) => c :: s
  | _ => []
  end.

(** ["\n".join(page.extract_text() or '' for page in pdf.pages)] *)
Definition extract_all_text (pages : list (option text)) : text :=
  join (lit (String "010"%char EmptyString)) (map or_empty pages).

(** [f"{x[:4]}-{x[4:8]}-{x[8:]}" if len(x) == 12 else x] *)
Definition aadhaar_format (x : text) : text :=
  if List.length x =? 12
  then slice x 0 4 ++ lit "-" ++ slice x 4 8 ++ lit "-" ++ skipn 8 x
  else x.

(** The label the normalisation looks for. *)
Definition Aadhaar : text := lit "Aadhaar".

(** A float NaN, as far as [str] goes. *)
Definition nan : value := VObj 0 (Ret (lit "nan")).

(** ** [hash_pii]: [str.encode] and [hashlib.sha256] *)

(** [s.encode()]: UTF-8, strict; a surrogate code point cannot be encoded. *)
Definition is_surrogate (c : N) : bool := ((55296 <=? c) && (c <=? 57343))%N.

Definition utf8_char (c : N) : list N :=
  if (c <? 128)%N then [c]
  else if (c <? 2048)%N then [192 + c / 64; 128 + c mod 64]%N
  else if (c <? 65536)%N
       then [224 + c / 4096; 128 + (c / 64) mod 64; 128 + c mod 64]%N
       else [240 + c / 262144; 128 + (c / 4096) mod 64;
             128 + (c / 64) mod 64; 128 + c mod 64]%N.

Fixpoint encode (s : text) : outcome (list N) :=
  match s with
  | [] => Ret []
  | c :: s' =>
      if is_surrogate c then Raise (OtherException "UnicodeEncodeError")
      else match encode s' with
           | Ret bs => Ret (utf8_char c ++ bs)
           | Raise e => Raise e
           end
  end.

Definition mask32 : Z := 4294967295%Z.
Definition add32 (a b : Z) : Z := Z.land (a + b) mask32.
Definition rotr (n x : Z) : Z :=
  Z.lor (Z.shiftr x n) (Z.land (Z.shiftl x (32 - n)) mask32).
Definition Ch (x y z : Z) : Z :=
  Z.lxor (Z.land x y) (Z.land (Z.lxor x mask32) z).
Definition Maj (x y z : Z) : Z :=
  Z.lxor (Z.lxor (Z.land x y) (Z.land x z)) (Z.land y z).
Definition Sigma0 (x : Z) : Z := Z.lxor (Z.lxor (rotr 2 x) (rotr 13 x)) (rotr 22 x).
Definition Sigma1 (x : Z) : Z := Z.lxor (Z.lxor (rotr 6 x) (rotr 11 x)) (rotr 25 x).
Definition sigma0 (x : Z) : Z := Z.lxor (Z.lxor (rotr 7 x) (rotr 18 x)) (Z.shiftr x 3).
Definition sigma1 (x : Z) : Z := Z.lxor (Z.lxor (rotr 17 x) (rotr 19 x)) (Z.shiftr x 10).

(** The round constants of SHA-256 (the fractional parts of the cube roots
    of the first 64 primes, on 32 bits), in decimal. *)
Definition K256 : list Z :=
  [1116352408; 1899447441; 3049323471; 3921009573; 961987163; 1508970993;
   2453635748; 2870763221; 3624381080; 310598401; 607225278; 1426881987;
   1925078388; 2162078206; 2614888103; 3248222580; 3835390401; 4022224774;
   264347078; 604807628; 770255983; 1249150122; 1555081692; 1996064986;
   2554220882; 2821834349; 2952996808; 3210313671; 3336571891; 3584528711;
   113926993; 338241895; 666307205; 773529912; 1294757372; 1396182291;
   1695183700; 1986661051; 2177026350; 2456956037; 2730485921; 2820302411;
   3259730800; 3345764771; 3516065817; 3600352804; 4094571909; 275423344;
   430227734; 506948616; 659060556; 883997877; 958139571; 1322822218;
   1537002063; 1747873779; 1955562222; 2024104815; 2227730452; 2361852424;
   2428436474; 2756734187; 3204031479; 3329325298]%Z.

Definition registers : Type := (Z * Z * Z * Z * Z * Z * Z * Z)%type.

(** The initial hash value (from the square roots of the first 8 primes),
    in decimal. *)
Definition H256 : registers :=
  (1779033703, 3144134277, 1013904242, 2773480762,
   1359893119, 2600822924, 528734635, 1541459225)%Z.

(** The message followed by the bit 1, zeros up to 56 modulo 64 bytes, and
    the length of the message in bits on 8 bytes. *)
Definition be_bytes (n : nat) (x : Z) : list Z :=
  map (fun i => Z.land (Z.shiftr x (8 * Z.of_nat i)) 255) (rev (seq 0 n)).

Definition pad (msg : list Z) : list Z :=
  let n := List.length msg in
  msg ++ [128%Z] ++ repeat 0%Z ((119 - n mod 64) mod 64)
      ++ be_bytes 8 (8 * Z.of_nat n).

Definition be_word (b : list Z) : Z :=
  fold_left (fun acc x => Z.lor (Z.shiftl acc 8) x) b 0%Z.

(** The words of one block, [count] of them. *)
Fixpoint words (count : nat) (b : list Z) : list Z :=
  match count with
  | O => []
  | S k => be_word (firstn 4 b) :: words k (skipn 4 b)
  end.

(** The message schedule, latest word first. *)
Fixpoint schedule (more : nat) (w : list Z) : list Z :=
  match more with
  | O => w
  | S k =>
      schedule k
        (add32 (add32 (sigma1 (nth 1 w 0%Z)) (nth 6 w 0%Z))
               (add32 (sigma0 (nth 14 w 0%Z)) (nth 15 w 0%Z)) :: w)
  end.

Definition round (r : registers) (kw : Z * Z) : registers :=
  let '(a, b, c, d, e, f, g, h) := r in
  let t1 := add32 (add32 (add32 h (Sigma1 e)) (add32 (Ch e f g) (fst kw))) (snd kw) in
  let t2 := add32 (Sigma0 a) (Maj a b c) in
  (add32 t1 t2, a, b, c, add32 d t1, e, f, g).

Definition compress (r : registers) (block : list Z) : registers :=
  let w := rev (schedule 48 (rev (words 16 block))) in
  let '(a, b, c, d, e, f, g, h) := fold_left round (combine K256 w) r in
  let '(a0, b0, c0, d0, e0, f0, g0, h0) := r in
  (add32 a0 a, add32 b0 b, add32 c0 c, add32 d0 d,
   add32 e0 e, add32 f0 f, add32 g0 g, add32 h0 h).

Fixpoint blocks (count : nat) (r : registers) (bytes : list Z) : registers :=
  match count with
  | O => r
  | S k => blocks k (compress r (firstn 64 bytes)) (skipn 64 bytes)
  end.

Definition sha256 (msg : list Z) : registers :=
  let p := pad msg in blocks (List.length p / 64) H256 p.

Definition hex_digit (d : Z) : N :=
  if (d <? 10)%Z then (48 + Z.to_N d)%N else (87 + Z.to_N d)%N.

Definition hex_word (x : Z) : text :=
  map (fun i => hex_digit (Z.land (Z.shiftr x (4 * Z.of_nat i)) 15)) (rev (seq 0 8)).

(** [hashlib.sha256(b).hexdigest()] *)
Definition hexdigest (r : registers) : text :=
  let '(a, b, c, d, e, f, g, h) := r in
  hex_word a ++ hex_word b ++ hex_word c ++ hex_word d
  ++ hex_word e ++ hex_word f ++ hex_word g ++ hex_word h.

(** [hash_pii] *)
Definition hash_pii (v : value) : outcome text :=
  match py_str v with
  | Raise e => Raise e
  | Ret s =>
      match encode s with
      | Raise e => Raise e
      | Ret bytes => Ret (firstn 16 (hexdigest (sha256 (map Z.of_N bytes))))
      end
  end.

(** The characters of a [hexdigest]. *)
Definition is_lower_hex (c : N) : bool :=
  ((48 <=? c) && (c <=? 57) || (97 <=? c) && (c <=? 102))%N.

(** [old in s] *)
Fixpoint occurs (old s : text) : bool :=
  match s with
  | [] => starts_with old []
  | _ :: s' => starts_with old s || occurs old s'
  end.

(** ** The custom recognizers *)

(** The regular expressions of the five patterns, as far as their syntax
    goes: a literal character, [\d], a class [[a-b]], [\b], a sequence and
    a counted repetition [r{lo,hi}]. *)
Inductive regex : Type :=
| Lit (c : N)
| Digit
| Range (lo hi : N)
| WordBoundary
| Cat (a b : regex)
| Repeat (a : regex) (lo hi : nat).

(** [PatternRecognizer(supported_entity=, patterns=[Pattern(name, regex,
    score)], supported_language=)]; the score is the decimal of the source. *)
Record PatternRecognizer : Type := {
  supported_entity : string;
  pattern_name : string;
  pattern_source : string;
  pattern : regex;
  score : QArith_base.Q;
  supported_language : string
}.

Definition digits (lo hi : nat) : regex := Repeat Digit lo hi.

Definition aadhar_recognizer : PatternRecognizer :=
  {| supported_entity := "AADHAAR";
     pattern_name := "Aadhaar Pattern";
     pattern_source := "\b\d{4}-\d{4}-\d{4}\b";
     pattern := Cat WordBoundary
                  (Cat (digits 4 4)
                     (Cat (Lit 45)
                        (Cat (digits 4 4)
                           (Cat (Lit 45) (Cat (digits 4 4) WordBoundary)))));
     score := QArith_base.Qmake 99 100;
     supported_language := "en" |}.

Definition pan_recognizer : PatternRecognizer :=
  {| supported_entity := "PAN";
     pattern_name := "PAN Pattern";
     pattern_source := "\b[A-Z]{5}[0-9]{4}[A-Z]\b";
     pattern := Cat WordBoundary
                  (Cat (Repeat (Range 65 90) 5 5)
                     (Cat (Repeat (Range 48 57) 4 4)
                        (Cat (Range 65 90) WordBoundary)));
     score := QArith_base.Qmake 95 100;
     supported_language := "en" |}.

Definition ip_recognizer : PatternRecognizer :=
  {| supported_entity := "IP_ADDRESS";
     pattern_name := "IP Pattern";
     pattern_source := "\b(?:\d{1,3}\.){3}\d{1,3}\b";
     pattern := Cat WordBoundary
                  (Cat (Repeat (Cat (digits 1 3) (Lit 46)) 3 3)
                     (Cat (digits 1 3) WordBoundary));
     score := QArith_base.Qmake 9 10;
     supported_language := "en" |}.

Definition bank_recognizer : PatternRecognizer :=
  {| supported_entity := "BANK_ACCOUNT";
     pattern_name := "Bank Pattern";
     pattern_source := "\b\d{9,18}\b";
     pattern := Cat WordBoundary (Cat (digits 9 18) WordBoundary);
     score := QArith_base.Qmake 8 10;
     supported_language := "en" |}.

Definition local_phone_recognizer : PatternRecognizer :=
  {| supported_entity := "PHONE_NUMBER";
     pattern_name := "Local 10-digit";
     pattern_source := "\b\d{10}\b";
     pattern := Cat WordBoundary (Cat (digits 10 10) WordBoundary);
     score := QArith_base.Qmake 10 10;
     supported_language := "en" |}.

(** The recognizers in the order of their [add_recognizer] calls. *)
Definition custom_recognizers : list PatternRecognizer :=
  [aadhar_recognizer; pan_recognizer; ip_recognizer; bank_recognizer;
   local_phone_recognizer].

(** ** Sample engines, loaders and inputs, to run the model on

    The interpreter state of a sample run is a number. *)

Definition no_detection (_ : nat) (_ : text) (_ : string) (_ : list string)
  : list RecognizerResult := [].

(** Detects the whole text as one entity of type [ty]. *)
Definition whole_text_detection (ty : string)
  (_ : nat) (t : text) (_ : string) (_ : list string)
  : list RecognizerResult :=
  [{| entity_type := ty; start := 0; end_ := List.length t |}].

(** A stand-in digest: with a salt, the salt, a colon and the value; with
    no salt, one that differs from run to run. *)
Definition tagged_digest (run : nat) (_ : string) (salt : option text) (v : text)
  : text :=
  match salt with
  | Some s => s ++ lit ":" ++ v
  | None => repeat 35%N run ++ v
  end.

Definition no_unicode_digit (_ : N) : bool := false.

Definition identity_lower (s : text) : text := s.

Definition initial_world : world nat :=
  {| proc := 0; console := []; files := []; engine_log := [] |}.

Definition people : DataFrame :=
  {| nrows := 2;
     columns :=
       [ (lit "Aadhaar", {| dtype_of := int64;
                            values := [VInt 123456789012; VInt 42] |});
         (lit "age", {| dtype_of := int64; values := [VInt 31; VInt 27] |});
         (lit "name", {| dtype_of := object;
                         values := [VStr (lit " Asha "); VNone] |}) ] |}.

(** Two columns under one label. *)
Definition twice_id : DataFrame :=
  {| nrows := 1;
     columns :=
       [ (lit "id", {| dtype_of := int64; values := [VInt 1] |});
         (lit "id", {| dtype_of := int64; values := [VInt 2] |}) ] |}.

(** An Aadhaar column of strings, the second with four digits. *)
Definition cards : DataFrame :=
  {| nrows := 2;
     columns :=
       [ (lit "Aadhaar", {| dtype_of := object;
                            values := [VStr (lit "1234 5678 9012");
                                       VStr (lit "12-34")] |}) ] |}.

Definition load_people (_ : text) : outcome DataFrame := Ret people.

Definition no_pages (_ : text) : outcome (list (option text)) := Ret [].

Definition missing_file (_ : text) : outcome DataFrame :=
  Raise (OtherException "FileNotFoundError").

(** A scan: two pages, neither with a text layer. *)
Definition blank_pages (_ : text) : outcome (list (option text)) :=
  Ret [None; Some []].

Definition one_page (_ : text) : outcome (list (option text)) :=
  Ret [Some (lit "Asha")].

(** A table with no Aadhaar column: the identifiers are under another
    label. *)
Definition staff : DataFrame :=
  {| nrows := 1;
     columns :=
       [ (lit "aadhaar_no", {| dtype_of := int64;
                               values := [VInt 123456789012] |});
         (lit "name", {| dtype_of := object;
                         values := [VStr (lit "Asha")] |}) ] |}.

Definition load_staff (_ : text) : outcome DataFrame := Ret staff.

(** Detects a name at offsets 7 to 11 and, listed after it, a number at
    offsets 3 to 5 under an entity type the operators dict has no entry
    for. *)
Definition name_and_number (_ : nat) (_ : text) (_ : string) (_ : list string)
  : list RecognizerResult :=
  [{| entity_type := "PERSON"; start := 7; end_ := 11 |};
   {| entity_type := "NRP"; start := 3; end_ := 5 |}].

(** A document of two pages, the second with no text layer. *)
Definition page_then_blank (_ : text) : outcome (list (option text)) :=
  Ret [Some (lit "Asha"); None].

Section Anonymizer.

(** ** What the module takes from outside

    [process] is the type of the interpreter's state outside this module.
    [analyze] is [analyzer.analyze(text=, language=,
    entities=)] with the five custom recognizers registered, [digest] the
    digest behind the [hash] operator ([None]: no salt given),
    [unicode_Nd] the decimal digits above ASCII that the regex class [\d]
    accepts, [unicode_lower] is [str.lower()] on strings that are not
    pure ASCII, and the loaders are [pd.read_csv], [pd.read_excel] and
    the page texts [pdfplumber] extracts. *)
Variable process : Type.
Variable analyze :
  process -> text -> string -> list string -> list RecognizerResult.
Variable digest : process -> string -> option text -> text -> text.
Variable unicode_Nd : N -> bool.
Variable unicode_lower : text -> text.
Variable read_csv : text -> outcome DataFrame.
Variable read_excel : text -> outcome DataFrame.
Variable pdf_pages : text -> outcome (list (option text)).

(** ** A state and exception monad over the world *)

Definition M (A : Type) : Type := world process -> outcome A * world process.

Definition ret {A} (a : A) : M A := fun w => (Ret a, w).

Definition raise {A} (e : exn) : M A := fun w => (Raise e, w).

Definition bind {A B} (m : M A) (k : A -> M B) : M B :=
  fun w =>
    match m w with
    | (Ret a, w') => k a w'
    | (Raise e, w') => (Raise e, w')
    end.

Definition lift {A} (o : outcome A) : M A := fun w => (o, w).

Notation "x <- c1 ;; c2" := (bind c1 (fun x => c2))
  (at level 61, c1 at next level, right associativity).
Notation "c1 ;; c2" := (bind c1 (fun _ => c2))
  (at level 61, right associativity).

Fixpoint mapM {A B} (f : A -> M B) (l : list A) : M (list B) :=
  match l with
  | [] => ret []
  | x :: l' => y <- f x ;; ys <- mapM f l' ;; ret (y :: ys)
  end.

Definition print (d : diag) : M unit :=
  fun w => (Ret tt, {| proc := proc w; console := console w ++ [d];
                       files := files w; engine_log := engine_log w |}).

Definition write_file (path : text) (a : artifact) : M unit :=
  fun w => (Ret tt, {| proc := proc w; console := console w;
                       files := files w ++ [(path, a)];
                       engine_log := engine_log w |}).

Definition log_call (c : engine_call) : M unit :=
  fun w => (Ret tt, {| proc := proc w; console := console w;
                       files := files w;
                       engine_log := engine_log w ++ [c] |}).

(** ** The engines *)

Definition call_analyze (t : text) (language : string) (entities : list string)
  : M (list RecognizerResult) :=
  fun w => bind (log_call (Analyze t language entities))
                (fun _ => ret (analyze (proc w) t language entities)) w.

(** Modelled from the spec: the operators of the redaction engine (a
    keyed hash, a literal replacement, pass-through). *)
Definition operate (p : process) (op : OperatorConfig) (s : text) : text :=
  match op with
  | Hash h salt => digest p h salt s
  | Replace new_value => new_value
  | Keep => s
  end.

(** Modelled from the spec: one span replaced by what its operator
    makes of it. *)
Definition replace_span (p : process) (ops : list (string * OperatorConfig))
  (t : text) (r : RecognizerResult) : text :=
  firstn (start r) t
  ++ operate p (operator_for ops (entity_type r)) (slice t (start r) (end_ r))
  ++ skipn (end_ r) t.

(** Modelled from the spec: [anonymizer.anonymize(text=, analyzer_results=,
    operators=).text], the contract apply(text, spans, operator_by_type):
    each detected span is replaced by what the operator of its entity type
    makes of it, from the last span to the first so that the offsets of
    the spans still to do stay valid.  What the engine does with spans that
    overlap is not defined at this layer. *)
Definition anonymize (p : process) (t : text) (results : list RecognizerResult)
  (ops : list (string * OperatorConfig)) : text :=
  fold_left (replace_span p ops) (sort_desc results) t.

Definition call_anonymize (t : text) (results : list RecognizerResult)
  (ops : list (string * OperatorConfig)) : M text :=
  fun w => bind (log_call (Anonymize t results ops))
                (fun _ => ret (anonymize (proc w) t results ops)) w.

(** ** [_anonymize_text] *)

Definition _anonymize_text (v : value) : M value :=
  match py_str v with
  | Ret s =>
      let t := strip s in
      match t with
      | [] => ret (VStr t)
      | _ :: _ =>
          results <- call_analyze t "en" ENTITIES ;;
          match results with
          | [] => ret (VStr t)
          | _ :: _ =>
              anonymized <- call_anonymize t results OPERATORS ;;
              ret (VStr anonymized)
          end
      end
  | Raise _ => ret v
  end.

(** ** [anonymize_dataframe] *)

(** [df[col].apply(_anonymize_text)]: the results are strings, or objects
    whose [str] raised, so the new column is an [object] column. *)
Definition apply_anonymize_text (s : Series) : M Series :=
  vs <- mapM _anonymize_text (values s) ;;
  ret {| dtype_of := object; values := vs |}.

(** The loop [for col in df.columns]. *)
Fixpoint anonymize_columns (cols : list text) (df : DataFrame) : M DataFrame :=
  match cols with
  | [] => ret df
  | col :: rest =>
      s <- lift (getitem df col "dtype") ;;
      df' <- (if dtype_eqb (dtype_of s) object
              then print (AnonymizingColumn col) ;;
                   s' <- apply_anonymize_text s ;;
                   ret (setitem df col s')
              else ret df) ;;
      anonymize_columns rest df'
  end.

Definition anonymize_dataframe (df : DataFrame) : M DataFrame :=
  anonymize_columns (labels df) df.

(** ** [anonymize_file] *)

(** The regex class [\d] on a [str] pattern. *)
Definition is_decimal (c : N) : bool :=
  if is_ascii c then ((48 <=? c) && (c <=? 57))%N else unicode_Nd c.

(** [re.sub(r'\D', '', s)] *)
Definition strip_non_digits (s : text) : text := filter is_decimal s.

(** [s.lower()] *)
Definition lower (s : text) : text :=
  if forallb is_ascii s then map ascii_lower s else unicode_lower s.

(** [input_path.split('.')[-1].lower()] *)
Definition extension (input_path : text) : text :=
  lower (last (split 46 input_path) []).

Fixpoint map_outcome {A B} (f : A -> outcome B) (l : list A) : outcome (list B) :=
  match l with
  | [] => Ret []
  | x :: l' =>
      match f x with
      | Raise e => Raise e
      | Ret y =>
          match map_outcome f l' with
          | Raise e => Raise e
          | Ret ys => Ret (y :: ys)
          end
      end
  end.

(** [s.astype(str)] *)
Definition astype_str (s : Series) : outcome Series :=
  match map_outcome py_str (values s) with
  | Ret strs => Ret {| dtype_of := object; values := map VStr strs |}
  | Raise e => Raise e
  end.

(** [s.str.replace(r'\D', '', regex=True)]: an element that is not a
    string becomes NaN. *)
Definition str_replace_non_digits (s : Series) : Series :=
  {| dtype_of := object;
     values := map (fun v => match v with
                             | VStr x => VStr (strip_non_digits x)
                             | _ => nan
                             end) (values s) |}.

(** The lambda of the second normalisation line; [len] of an element
    that is not a string raises. *)
Definition format_value (v : value) : outcome value :=
  match v with
  | VStr x => Ret (VStr (aadhaar_format x))
  | _ => Raise (OtherException "TypeError")
  end.

Definition apply_format (s : Series) : outcome Series :=
  match map_outcome format_value (values s) with
  | Ret vs => Ret {| dtype_of := object; values := vs |}
  | Raise e => Raise e
  end.

(** The block under [# Normalize Aadhaar before anonymizing].  Its second
    line reads [df['Aadhaar']] after the first line went through, so under
    a label that is not repeated. *)
Definition normalize_aadhaar (df : DataFrame) : M DataFrame :=
  if has_column df Aadhaar
  then s <- lift (getitem df Aadhaar "str") ;;
       s1 <- lift (astype_str s) ;;
       let df1 := setitem df Aadhaar (str_replace_non_digits s1) in
       s2 <- lift (getitem df1 Aadhaar "str") ;;
       s3 <- lift (apply_format s2) ;;
       ret (setitem df1 Aadhaar s3)
  else ret df.

(** Everything after the tabular load. *)
Definition anonymize_table (ext : text) (df : DataFrame)
  (output_path : option text) : M file_result :=
  print OriginalDataPreview ;;
  print (FramePreview (head df)) ;;
  df <- normalize_aadhaar df ;;
  print RunningAnonymization ;;
  result_df <- anonymize_dataframe df ;;
  print AnonymizedDataPreview ;;
  print (FramePreview (head result_df)) ;;
  (match output_path with
   | Some out =>
       if truthy output_path
       then (if text_eqb ext (lit "csv")
             then write_file out (CsvFile result_df)
             else write_file out (ExcelFile result_df)) ;;
            print (SavedTo out)
       else ret tt
   | None => ret tt
   end) ;;
  ret (Frame result_df).

(** The [pdf] branch. *)
Definition anonymize_pdf (input_path : text) (output_path : option text)
  : M file_result :=
  pages <- lift (pdf_pages input_path) ;;
  let all_text := extract_all_text pages in
  print ExtractedTextPreview ;;
  print (Preview (firstn 500 all_text)) ;;
  print RunningAnonymization ;;
  anonymized_text <- _anonymize_text (VStr all_text) ;;
  (match output_path with
   | Some out =>
       if truthy output_path
       then let target := replace (lit ".pdf") (lit "_anonymized.txt") out in
            (match anonymized_text with
             | VStr t => write_file target (TextFile t)
             | _ => raise (OtherException "TypeError")
             end) ;;
            print (SavedTo target)
       else ret tt
   | None => ret tt
   end) ;;
  ret (Text anonymized_text).

Definition anonymize_file (input_path : text) (output_path : option text)
  : M file_result :=
  print (ReadingFrom input_path) ;;
  let ext := extension input_path in
  if text_eqb ext (lit "csv")
  then df <- lift (read_csv input_path) ;;
       anonymize_table ext df output_path
  else if text_eqb ext (lit "xls") || text_eqb ext (lit "xlsx")
  then df <- lift (read_excel input_path) ;;
       anonymize_table ext df output_path
  else if text_eqb ext (lit "pdf")
  then anonymize_pdf input_path output_path
  else raise (ValueError "❌ Unsupported file format. Only CSV and Excel are supported.").

(** [anonymize_document]: the public name of [anonymize_file]. *)
Definition anonymize_document (input_path : text) (output_path : option text)
  : M file_result :=
  anonymize_file input_path output_path.

(** ** Notions the properties are stated with *)

(** What [_anonymize_text v] returns in a run whose interpreter state is
    [p]. *)
Definition redacted (p : process) (v : value) : value :=
  match fst (_anonymize_text v {| proc := p; console := []; files := [];
                                  engine_log := [] |}) with
  | Ret v' => v'
  | Raise _ => v
  end.

(** A column after [anonymize_dataframe], in a run whose interpreter state
    is [p]. *)
Definition redact_column (p : process) (c : text * Series) : text * Series :=
  if dtype_eqb (dtype_of (snd c)) object
  then (fst c, {| dtype_of := object; values := map (redacted p) (values (snd c)) |})
  else c.

(** The text rebuilt from the left, from offset [pos] on: between the
    spans the text as it is, for each span what its operator makes of it. *)
Fixpoint render (p : process) (ops : list (string * OperatorConfig)) (t : text)
  (pos : nat) (spans : list RecognizerResult) : text :=
  match spans with
  | [] => skipn pos t
  | r :: rest =>
      slice t pos (start r)
      ++ operate p (operator_for ops (entity_type r)) (slice t (start r) (end_ r))
      ++ render p ops t (end_ r) rest
  end.

(** Spans given from the left, not empty, inside a text of [len]
    characters, none before [pos] and no two overlapping. *)
Fixpoint separated (pos len : nat) (spans : list RecognizerResult) : Prop :=
  match spans with
  | [] => True
  | r :: rest =>
      pos <= start r /\ start r < end_ r /\ end_ r <= len
      /\ separated (end_ r) len rest
  end.

(** A text with no whitespace at either end. *)
Definition bare (s : text) : bool :=
  match s with
  | [] => true
  | c :: _ => negb (isspace c) && negb (isspace (last s c))
  end.

(** The world after more was printed and more calls were made. *)
Definition extend (w : world process) (printed : list diag)
  (calls : list engine_call) : world process :=
  {| proc := proc w; console := console w ++ printed; files := files w;
     engine_log := engine_log w ++ calls |}.

(** Two spans that share no character. *)
Definition apart (a b : RecognizerResult) : Prop :=
  end_ a <= start b \/ end_ b <= start a.

(** Spans in any order, not empty, inside a text of [len] characters, no
    two overlapping. *)
Fixpoint nonoverlapping (len : nat) (spans : list RecognizerResult) : Prop :=
  match spans with
  | [] => True
  | r :: rest =>
      start r < end_ r /\ end_ r <= len /\ Forall (apart r) rest
      /\ nonoverlapping len rest
  end.

(** Spans given from the right, not empty, the first ending by [len], each
    of the others ending where the one before it starts or earlier. *)
Fixpoint descending (len : nat) (spans : list RecognizerResult) : Prop :=
  match spans with
  | [] => True
  | r :: rest => start r < end_ r /\ end_ r <= len /\ descending (start r) rest
  end.

(** ** Matching the patterns of the custom recognizers

    The positions a pattern can match between, as [re] matches it with no
    flag set.  [unicode_alnum] is the letters and numbers above ASCII,
    other than the decimal digits, that the class [\w] accepts. *)
Variable unicode_alnum : N -> bool.

(** A position in a text: the character before it, if any, and what is
    left. *)
Definition position : Type := (option N * text)%type.

(** [\w] *)
Definition is_word (c : N) : bool :=
  if is_ascii c
  then ((48 <=? c) && (c <=? 57) || (65 <=? c) && (c <=? 90)
        || (97 <=? c) && (c <=? 122) || (c =? 95))%N
  else unicode_Nd c || unicode_alnum c.

Definition word_before (p : position) : bool :=
  match fst p with Some c => is_word c | None => false end.

Definition word_after (p : position) : bool :=
  match snd p with c :: _ => is_word c | [] => false end.

(** One character of the class [ok]. *)
Definition one_char (ok : N -> bool) (p : position) : list position :=
  match snd p with
  | c :: s => if ok c then [(Some c, s)] else []
  | [] => []
  end.

(** Between [lo] and [hi] rounds of [f]. *)
Fixpoint iterate (f : position -> list position) (lo hi : nat) (p : position)
  : list position :=
  match hi with
  | O => if lo =? 0 then [p] else []
  | S h =>
      (if lo =? 0 then [p] else [])
      ++ flat_map (iterate f (lo - 1) h) (f p)
  end.

(** The positions at which a match of [r] that starts at [p] can end. *)
Fixpoint ends (r : regex) (p : position) : list position :=
  match r with
  | Lit c => one_char (N.eqb c) p
  | Digit => one_char (is_decimal) p
  | Range lo hi => one_char (fun c => (lo <=? c) && (c <=? hi))%N p
  | WordBoundary => if xorb (word_before p) (word_after p) then [p] else []
  | Cat a b => flat_map (ends b) (ends a p)
  | Repeat a lo hi => iterate (ends a) lo hi p
  end.

(** [re.fullmatch(r, s) is not None] *)
Definition fullmatch (r : regex) (s : text) : bool :=
  existsb (fun p => match snd p with [] => true | _ :: _ => false end)
          (ends r (None, s)).
(** A computation that writes no file and leaves the interpreter state
    alone, whether it returns or raises. *)
Definition writes_nothing {A : Type} (m : M A) : Prop :=
  forall w, files (snd (m w)) = files w /\ proc (snd (m w)) = proc w.

(** The labels of the [object] columns, in column order. *)
Definition object_labels (cols : list (text * Series)) : list text :=
  map fst (filter (fun c => dtype_eqb (dtype_of (snd c)) object) cols).

(** The file format the tabular path writes. *)
Definition written_table (ext : text) (df : DataFrame) : artifact :=
  if text_eqb ext (lit "csv") then CsvFile df else ExcelFile df.

(** * Properties *)

Unset Implicit Arguments.
Set Default Proof Using "Type".

(** ** Strings *)

Lemma text_eqb_eq (a b : text) : text_eqb a b = true <-> a = b.
Proof.
  revert b; induction a as [|x a IH]; intros [|y b]; simpl; split;
    try congruence; try reflexivity.
  - intros H. apply andb_true_iff in H as [Hx Hab].
    apply N.eqb_eq in Hx. apply IH in Hab. congruence.
  - intros H. injection H as -> ->.
    rewrite N.eqb_refl. simpl. now apply IH.
Qed.

Lemma text_eqb_refl (a : text) : text_eqb a a = true.
Proof. now apply text_eqb_eq. Qed.

Lemma text_eqb_neq (a b : text) : a <> b -> text_eqb a b = false.
Proof.
  intros H. destruct (text_eqb a b) eqn:E; [|reflexivity].
  apply text_eqb_eq in E. contradiction.
Qed.

Lemma lstrip_whitespace (s : text) : forallb isspace s = true -> lstrip s = [].
Proof.
  induction s as [|c s IH]; simpl; [reflexivity|].
  intros H. apply andb_true_iff in H as [Hc Hs].
  rewrite Hc. now apply IH.
Qed.

Lemma strip_whitespace (s : text) : forallb isspace s = true -> strip s = [].
Proof.
  intros H. unfold strip, rstrip. now rewrite (lstrip_whitespace s H).
Qed.

Lemma lstrip_bare_head (c : N) (s : text) :
  isspace c = false -> lstrip (c :: s) = c :: s.
Proof. intros H. simpl. now rewrite H. Qed.

Lemma rev_last (d : N) (s : text) :
  s <> [] -> rev s = last s d :: rev (removelast s).
Proof.
  intros H. rewrite (app_removelast_last d H) at 1.
  now rewrite rev_app_distr.
Qed.

Lemma strip_bare (s : text) : bare s = true -> strip s = s.
Proof.
  destruct s as [|c s]; [reflexivity|].
  unfold bare. intros H. apply andb_true_iff in H as [Hc Hl].
  apply negb_true_iff in Hc, Hl.
  assert (Hne : c :: s <> []) by discriminate.
  unfold strip, rstrip. rewrite (lstrip_bare_head c s Hc).
  rewrite (rev_last c (c :: s) Hne).
  rewrite (lstrip_bare_head _ _ Hl).
  rewrite <- (rev_last c (c :: s) Hne).
  apply rev_involutive.
Qed.

(** ** [_anonymize_text] *)

(** Every run of [_anonymize_text] returns, with the value [redacted]
    names; it prints nothing, writes nothing and only adds to the log of
    engine calls. *)
Lemma anonymize_text_run (v : value) (w : world process) :
  exists calls,
    _anonymize_text v w = (Ret (redacted (proc w) v), extend w [] calls).
Proof.
  unfold redacted, _anonymize_text, extend.
  destruct w as [p out fs log]; simpl.
  destruct (py_str v) as [s|e]; simpl.
  - destruct (strip s) as [|c t] eqn:Es; simpl.
    + exists []. unfold ret. now rewrite !app_nil_r.
    + unfold bind, call_analyze, call_anonymize, bind, log_call, ret; simpl.
      destruct (analyze p (c :: t) "en" ENTITIES) as [|r rs]; simpl.
      * eexists. rewrite app_nil_r. reflexivity.
      * eexists. rewrite app_nil_r, <- app_assoc. reflexivity.
  - exists []. unfold ret. now rewrite !app_nil_r.
Qed.

(** C1, as the code has it: on an empty or whitespace-only string the
    text redaction returns the empty string, which is the input with its
    whitespace stripped, and leaves the world as it was: entity detection
    is not invoked. *)
Theorem whitespace_only_returns_empty (s : text) (w : world process) :
  forallb isspace s = true ->
  _anonymize_text (VStr s) w = (Ret (VStr []), w).
Proof.
  intros H. unfold _anonymize_text. simpl.
  now rewrite (strip_whitespace s H).
Qed.

(** C2, as the code has it: when entity detection yields no results on
    the stripped text, the text redaction returns the text with its leading
    and trailing whitespace stripped, prints nothing and writes nothing; a
    text with no whitespace at either end is returned as it is. *)
Theorem no_results_returns_stripped (v : value) (s : text) (w : world process) :
  py_str v = Ret s ->
  analyze (proc w) (strip s) "en" ENTITIES = [] ->
  (exists calls,
     _anonymize_text v w = (Ret (VStr (strip s)), extend w [] calls))
  /\ (bare s = true -> fst (_anonymize_text v w) = Ret (VStr s)).
Proof.
  intros Hs Hnone.
  assert (E : exists calls,
             _anonymize_text v w = (Ret (VStr (strip s)), extend w [] calls)).
  { unfold _anonymize_text. rewrite Hs.
    destruct (strip s) as [|c t] eqn:Es.
    - exists []. unfold ret, extend. destruct w; simpl. now rewrite !app_nil_r.
    - unfold bind, call_analyze, bind, log_call, ret; simpl.
      rewrite Hnone. eexists. unfold extend; simpl.
      rewrite app_nil_r. reflexivity. }
  split; [exact E|].
  intros Hb. destruct E as [calls E]. rewrite E. simpl.
  now rewrite (strip_bare s Hb).
Qed.

(** C3: when the coercion of the input to a string raises, the text
    redaction returns the original value and the failure goes no further;
    the world is as it was. *)
Theorem coercion_failure_passes_through (v : value) (e : exn) (w : world process) :
  py_str v = Raise e ->
  _anonymize_text v w = (Ret v, w).
Proof.
  intros H. unfold _anonymize_text. now rewrite H.
Qed.

(** ** The operators of the source *)

Lemma operator_for_unconfigured (ty : string) :
  dict_get ty OPERATORS = None ->
  operator_for OPERATORS ty = Replace (lit "[REDACTED]").
Proof.
  intros H. unfold operator_for. rewrite H. reflexivity.
Qed.

(** Whatever the entity type, the operator is the salted hash or the
    literal replacement. *)
Lemma operator_for_OPERATORS (ty : string) :
  operator_for OPERATORS ty = Hash "sha256" (Some SALT)
  \/ operator_for OPERATORS ty = Replace (lit "[REDACTED]").
Proof.
  destruct (dict_get ty OPERATORS) as [o|] eqn:E.
  - unfold operator_for. rewrite E.
    unfold OPERATORS in E. simpl in E.
    repeat match type of E with
           | (if ?b then _ else _) = _ => destruct b
           end;
      try (injection E as <-; auto); discriminate.
  - right. now apply operator_for_unconfigured.
Qed.

Lemma operator_for_not_Keep (ty : string) : operator_for OPERATORS ty <> Keep.
Proof.
  destruct (operator_for_OPERATORS ty) as [H|H]; rewrite H; discriminate.
Qed.

(** ** Applying the operators to separated spans *)

Lemma separated_weaken (pos pos' len : nat) (spans : list RecognizerResult) :
  pos' <= pos -> separated pos len spans -> separated pos' len spans.
Proof.
  destruct spans as [|r rest]; simpl; [trivial|].
  intros Hle (H1 & H2 & H3 & H4). repeat split; try assumption. lia.
Qed.

Lemma separated_starts (pos len : nat) (spans : list RecognizerResult) :
  separated pos len spans -> Forall (fun r => pos <= start r) spans.
Proof.
  revert pos; induction spans as [|r rest IH]; intros pos; simpl.
  - constructor.
  - intros (H1 & H2 & H3 & H4). constructor; [assumption|].
    apply IH. apply separated_weaken with (pos := end_ r); [lia|assumption].
Qed.

Lemma insert_desc_last (r : RecognizerResult) (l : list RecognizerResult) :
  Forall (fun x => start r < start x) l -> insert_desc r l = l ++ [r].
Proof.
  induction 1 as [|x l Hx Hl IH]; simpl; [reflexivity|].
  destruct (Nat.leb_spec (start x) (start r)); [lia|].
  now rewrite IH.
Qed.

Lemma sort_desc_separated (pos len : nat) (spans : list RecognizerResult) :
  separated pos len spans -> sort_desc spans = rev spans.
Proof.
  revert pos; induction spans as [|r rest IH]; intros pos; simpl;
    [reflexivity|].
  intros (H1 & H2 & H3 & H4).
  unfold sort_desc in *. rewrite (IH _ H4).
  apply insert_desc_last.
  apply Forall_rev.
  apply separated_starts in H4.
  eapply Forall_impl; [|exact H4]. simpl. intros; lia.
Qed.

(** Replacing from the right leaves the text to the left of the spans as
    it was, and to the right of it gives the rendering from the left. *)
Lemma replace_right_to_left (p : process) (ops : list (string * OperatorConfig))
  (t : text) (spans : list RecognizerResult) (pos : nat) :
  separated pos (List.length t) spans ->
  let out := fold_right (fun r acc => replace_span p ops acc r) t spans in
  firstn pos out = firstn pos t /\ skipn pos out = render p ops t pos spans.
Proof.
  revert pos; induction spans as [|r rest IH]; intros pos; simpl.
  - auto.
  - intros (H1 & H2 & H3 & H4).
    destruct (IH _ H4) as [Hpre Hpost]. simpl in Hpre, Hpost.
    set (Y := fold_right (fun r acc => replace_span p ops acc r) t rest) in *.
    assert (Hs : firstn (start r) Y = firstn (start r) t).
    { replace (start r) with (Nat.min (start r) (end_ r)) by lia.
      rewrite <- !firstn_firstn. now rewrite Hpre. }
    assert (Hm : slice Y (start r) (end_ r) = slice t (start r) (end_ r)).
    { unfold slice. rewrite <- !skipn_firstn_comm. now rewrite Hpre. }
    assert (Hl : List.length (firstn (start r) t) = start r).
    { rewrite length_firstn. lia. }
    unfold replace_span. rewrite Hs, Hm, Hpost. split.
    + rewrite firstn_app, Hl.
      replace (pos - start r) with 0 by lia. simpl. rewrite app_nil_r.
      rewrite firstn_firstn. f_equal. lia.
    + rewrite skipn_app, Hl.
      replace (pos - start r) with 0 by lia. simpl.
      unfold slice at 1. now rewrite skipn_firstn_comm.
Qed.

Lemma fold_left_on_rev {A B : Type} (f : A -> B -> A) (l : list B) (i : A) :
  fold_left f (rev l) i = fold_right (fun y x => f x y) i l.
Proof.
  induction l as [|y l IH]; simpl; [reflexivity|].
  rewrite fold_left_app. simpl. now rewrite IH.
Qed.

Lemma anonymize_render (p : process) (ops : list (string * OperatorConfig))
  (t : text) (spans : list RecognizerResult) :
  separated 0 (List.length t) spans ->
  anonymize p t spans ops = render p ops t 0 spans.
Proof.
  intros H. unfold anonymize.
  rewrite (sort_desc_separated _ _ _ H), fold_left_on_rev.
  now destruct (replace_right_to_left p ops t spans 0 H) as [_ Hr].
Qed.

(** ** Applying the operators to spans in any order *)

Lemma insert_desc_permutation (r : RecognizerResult)
  (l : list RecognizerResult) :
  Permutation (insert_desc r l) (r :: l).
Proof.
  induction l as [|x l IH]; simpl; [apply Permutation_refl|].
  destruct (start x <=? start r); [apply Permutation_refl|].
  apply Permutation_trans with (x :: r :: l);
    [now apply perm_skip | apply perm_swap].
Qed.

Lemma sort_desc_permutation (results : list RecognizerResult) :
  Permutation (sort_desc results) results.
Proof.
  induction results as [|r rs IH]; [apply Permutation_refl|].
  change (sort_desc (r :: rs)) with (insert_desc r (sort_desc rs)).
  apply Permutation_trans with (r :: sort_desc rs);
    [apply insert_desc_permutation | now apply perm_skip].
Qed.

Lemma insert_desc_descending (r : RecognizerResult)
  (l : list RecognizerResult) (len : nat) :
  start r < end_ r -> end_ r <= len -> Forall (apart r) l ->
  descending len l -> descending len (insert_desc r l).
Proof.
  revert len; induction l as [|x l IH]; intros len Hr Hlen Ha Hd; simpl.
  - auto.
  - simpl in Hd. destruct Hd as (Hx & Hxl & Hd).
    inversion Ha as [|? ? Hax Hal]; subst. unfold apart in Hax.
    destruct (Nat.leb_spec (start x) (start r)); simpl.
    + split; [assumption|]. split; [assumption|].
      split; [assumption|]. split; [lia|assumption].
    + split; [assumption|]. split; [assumption|].
      apply IH; try assumption. lia.
Qed.

Lemma sort_desc_descending (len : nat) (results : list RecognizerResult) :
  nonoverlapping len results -> descending len (sort_desc results).
Proof.
  induction results as [|r rs IH]; [trivial|].
  intros (Hr & Hlen & Ha & Hn).
  change (sort_desc (r :: rs)) with (insert_desc r (sort_desc rs)).
  apply insert_desc_descending; try assumption.
  - rewrite Forall_forall in *. intros x Hx. apply Ha.
    exact (Permutation_in x (sort_desc_permutation rs) Hx).
  - now apply IH.
Qed.

Lemma separated_snoc (pos hi len : nat) (spans : list RecognizerResult)
  (r : RecognizerResult) :
  separated pos hi spans -> pos <= hi -> hi <= start r ->
  start r < end_ r -> end_ r <= len ->
  separated pos len (spans ++ [r]).
Proof.
  revert pos; induction spans as [|x spans IH];
    intros pos Hs Hp Hhi Hr Hlen; simpl.
  - split; [lia|]. split; [lia|]. split; [lia|trivial].
  - simpl in Hs. destruct Hs as (H1 & H2 & H3 & H4).
    split; [lia|]. split; [lia|]. split; [lia|].
    apply IH; try assumption; lia.
Qed.

Lemma descending_rev (len : nat) (l : list RecognizerResult) :
  descending len l -> separated 0 len (rev l).
Proof.
  revert len; induction l as [|r l IH]; intros len; simpl; [trivial|].
  intros (Hr & Hlen & Hd).
  apply separated_snoc with (hi := start r); try lia. now apply IH.
Qed.

(** Spans that do not overlap are replaced one by one, in whatever order
    the results list them: the text is the rendering from the left of the
    spans put in text order. *)
Lemma anonymize_render_any_order (p : process)
  (ops : list (string * OperatorConfig)) (t : text)
  (results : list RecognizerResult) :
  nonoverlapping (List.length t) results ->
  separated 0 (List.length t) (rev (sort_desc results))
  /\ anonymize p t results ops = render p ops t 0 (rev (sort_desc results)).
Proof.
  intros H.
  pose proof (descending_rev _ _ (sort_desc_descending _ _ H)) as Hs.
  split; [exact Hs|]. unfold anonymize.
  assert (E : sort_desc results = rev (rev (sort_desc results)))
    by (symmetry; apply rev_involutive).
  set (spans := rev (sort_desc results)) in *.
  rewrite E, fold_left_on_rev.
  now destruct (replace_right_to_left p ops t spans 0 Hs) as [_ Hr].
Qed.

(** Each of the ten entity types the analyzer is asked for has the salted
    hash as its own operator. *)
Lemma operator_for_requested (ty : string) :
  In ty ENTITIES -> operator_for OPERATORS ty = Hash "sha256" (Some SALT).
Proof.
  unfold ENTITIES. simpl. intros H.
  repeat (destruct H as [<-|H]; [reflexivity|]). contradiction.
Qed.

(** C4: when detection succeeds with spans that do not overlap, the text
    redaction returns the stripped text with every detected span replaced
    by what the operator of its entity type makes of it and the text between
    the spans kept, after one call to each engine.  The operator of a span
    whose entity type has no entry of its own in the operators dict is the
    DEFAULT one, so such a span becomes the literal [[REDACTED]] whatever
    it holds; a span of one of the ten requested types becomes the salted
    digest of what it holds; and no span is passed through. *)
Theorem default_operator_redacts (v : value) (s : text) (w : world process)
  (r : RecognizerResult) (rs : list RecognizerResult) :
  py_str v = Ret s ->
  analyze (proc w) (strip s) "en" ENTITIES = r :: rs ->
  nonoverlapping (List.length (strip s)) (r :: rs) ->
  _anonymize_text v w
  = (Ret (VStr (render (proc w) OPERATORS (strip s) 0
                  (rev (sort_desc (r :: rs))))),
     extend w [] [Analyze (strip s) "en" ENTITIES;
                  Anonymize (strip s) (r :: rs) OPERATORS])
  /\ Permutation (rev (sort_desc (r :: rs))) (r :: rs)
  /\ separated 0 (List.length (strip s)) (rev (sort_desc (r :: rs)))
  /\ (forall x, In x (r :: rs) ->
        operator_for OPERATORS (entity_type x) <> Keep
        /\ (dict_get (entity_type x) OPERATORS = None ->
            operate (proc w) (operator_for OPERATORS (entity_type x))
              (slice (strip s) (start x) (end_ x))
            = lit "[REDACTED]")
        /\ (In (entity_type x) ENTITIES ->
            operate (proc w) (operator_for OPERATORS (entity_type x))
              (slice (strip s) (start x) (end_ x))
            = digest (proc w) "sha256" (Some SALT)
                (slice (strip s) (start x) (end_ x)))).
Proof.
  intros Hs Hr Hn.
  destruct (anonymize_render_any_order (proc w) OPERATORS (strip s) (r :: rs) Hn)
    as [Hsep Hren].
  split; [|split; [|split]].
  - unfold _anonymize_text. rewrite Hs. cbv zeta.
    remember (strip s) as t0 eqn:Et.
    destruct t0 as [|c t]; [simpl in Hn; lia|].
    unfold bind, call_analyze, call_anonymize, bind, log_call, ret.
    cbv beta iota. rewrite Hr. cbv beta iota.
    cbn [proc]. rewrite Hren.
    unfold extend. cbn [proc console files engine_log].
    now rewrite app_nil_r, <- app_assoc.
  - apply Permutation_trans with (sort_desc (r :: rs));
      [apply Permutation_sym, Permutation_rev | apply sort_desc_permutation].
  - exact Hsep.
  - intros x Hx. split; [apply operator_for_not_Keep|]. split.
    + intros Hnone. now rewrite (operator_for_unconfigured _ Hnone).
    + intros Hin. now rewrite (operator_for_requested _ Hin).
Qed.

(** ** Worlds *)

Lemma extend_nil (w : world process) : extend w [] [] = w.
Proof. destruct w. unfold extend. simpl. now rewrite !app_nil_r. Qed.

Lemma extend_extend (w : world process) (a c : list diag)
  (b d : list engine_call) :
  extend (extend w a b) c d = extend w (a ++ c) (b ++ d).
Proof. unfold extend. simpl. now rewrite !app_assoc. Qed.

Lemma print_run (d : diag) (w : world process) :
  print d w = (Ret tt, extend w [d] []).
Proof. unfold print, extend. now rewrite app_nil_r. Qed.

Lemma mapM_anonymize_text (vs : list value) (w : world process) :
  exists calls,
    mapM _anonymize_text vs w
    = (Ret (map (redacted (proc w)) vs), extend w [] calls).
Proof.
  revert w; induction vs as [|v vs IH]; intros w; simpl.
  - exists []. unfold ret. now rewrite extend_nil.
  - destruct (anonymize_text_run v w) as [c1 H1].
    destruct (IH (extend w [] c1)) as [c2 H2].
    exists (c1 ++ c2). unfold bind. rewrite H1, H2. unfold ret.
    now rewrite extend_extend.
Qed.

(** ** Frames whose labels are distinct *)

Lemma filter_other_labels (l : text) (cols : list (text * Series)) :
  ~ In l (map fst cols) ->
  filter (fun c => text_eqb (fst c) l) cols = [].
Proof.
  induction cols as [|[k s] cols IH]; simpl; [reflexivity|].
  intros H. rewrite text_eqb_neq by (intros ->; apply H; now left).
  apply IH. intros Hin. apply H. now right.
Qed.

Lemma map_other_labels (l : text) (s' : Series) (cols : list (text * Series)) :
  ~ In l (map fst cols) ->
  map (fun c => if text_eqb (fst c) l then (fst c, s') else c) cols = cols.
Proof.
  induction cols as [|[k s] cols IH]; simpl; [reflexivity|].
  intros H. rewrite text_eqb_neq by (intros ->; apply H; now left).
  f_equal. apply IH. intros Hin. apply H. now right.
Qed.

Lemma NoDup_middle (l : text) (s : Series) (pre post : list (text * Series)) :
  NoDup (map fst (pre ++ (l, s) :: post)) ->
  ~ In l (map fst pre) /\ ~ In l (map fst post).
Proof.
  rewrite map_app. simpl. intros H.
  apply NoDup_remove_2 in H. rewrite in_app_iff in H.
  split; intros Hin; apply H; [left|right]; exact Hin.
Qed.

Lemma getitem_unique (n : nat) (l : text) (s : Series)
  (pre post : list (text * Series)) (attr : string) :
  NoDup (map fst (pre ++ (l, s) :: post)) ->
  getitem {| nrows := n; columns := pre ++ (l, s) :: post |} l attr = Ret s.
Proof.
  intros H. destruct (NoDup_middle _ _ _ _ H) as [Hpre Hpost].
  unfold getitem, select. cbn [columns].
  rewrite filter_app. cbn [filter fst]. rewrite text_eqb_refl.
  rewrite (filter_other_labels _ _ Hpre), (filter_other_labels _ _ Hpost).
  reflexivity.
Qed.

Lemma has_column_In (df : DataFrame) (l : text) :
  has_column df l = true <-> In l (labels df).
Proof.
  unfold has_column. rewrite existsb_exists. split.
  - intros (x & Hx & E). apply text_eqb_eq in E. now subst.
  - intros H. exists l. split; [assumption|apply text_eqb_refl].
Qed.

Lemma setitem_unique (n : nat) (l : text) (s s' : Series)
  (pre post : list (text * Series)) :
  NoDup (map fst (pre ++ (l, s) :: post)) ->
  setitem {| nrows := n; columns := pre ++ (l, s) :: post |} l s'
  = {| nrows := n; columns := pre ++ (l, s') :: post |}.
Proof.
  intros H. destruct (NoDup_middle _ _ _ _ H) as [Hpre Hpost].
  unfold setitem.
  replace (has_column _ l) with true.
  2:{ symmetry. apply has_column_In. unfold labels. simpl.
      rewrite map_app, in_app_iff. right. now left. }
  simpl. f_equal. rewrite map_app. simpl. rewrite text_eqb_refl. simpl.
  now rewrite (map_other_labels _ _ _ Hpre), (map_other_labels _ _ _ Hpost).
Qed.

(** ** [anonymize_dataframe] *)

(** The loop, having done the columns [pre], does the columns [post] in
    place and in order. *)
Lemma anonymize_columns_run (post pre : list (text * Series)) (n : nat)
  (w : world process) :
  NoDup (map fst (pre ++ post)) ->
  exists printed calls,
    anonymize_columns (map fst post) {| nrows := n; columns := pre ++ post |} w
    = (Ret {| nrows := n;
              columns := pre ++ map (redact_column (proc w)) post |},
       extend w printed calls).
Proof.
  revert pre w; induction post as [|[l s] post IH]; intros pre w Hnd.
  - exists [], []. simpl. unfold ret. now rewrite extend_nil.
  - simpl. unfold bind at 1. unfold lift.
    rewrite (getitem_unique n l s pre post _ Hnd).
    unfold redact_column at 1. simpl.
    destruct (dtype_eqb (dtype_of s) object) eqn:Ed.
    + unfold bind at 1. unfold bind at 1. rewrite print_run.
      unfold apply_anonymize_text. unfold bind at 1. unfold bind at 1.
      destruct (mapM_anonymize_text (values s) (extend w [AnonymizingColumn l] []))
        as [c1 H1].
      rewrite H1. unfold ret at 1. unfold ret at 1.
      rewrite (setitem_unique n l s _ pre post Hnd). simpl proc.
      set (s' := {| dtype_of := object; values := map (redacted (proc w)) (values s) |}).
      assert (Hnd' : NoDup (map fst ((pre ++ [(l, s')]) ++ post))).
      { rewrite <- app_assoc. simpl. rewrite map_app in *. exact Hnd. }
      destruct (IH (pre ++ [(l, s')])
                   (extend (extend w [AnonymizingColumn l] []) [] c1) Hnd')
        as (pr & c2 & H2).
      rewrite <- !app_assoc in H2. simpl in H2.
      rewrite H2. rewrite !extend_extend. simpl. eauto.
    + unfold bind at 1. unfold ret at 1.
      assert (Hnd' : NoDup (map fst ((pre ++ [(l, s)]) ++ post))).
      { now rewrite <- app_assoc. }
      destruct (IH (pre ++ [(l, s)]) w Hnd') as (pr & c2 & H2).
      rewrite <- !app_assoc in H2. simpl in H2.
      rewrite H2. eauto.
Qed.

(** On a frame whose labels are distinct, [anonymize_dataframe] returns
    the frame with every [object] column redacted in place; it writes no
    file. *)
Lemma anonymize_dataframe_run (df : DataFrame) (w : world process) :
  NoDup (labels df) ->
  exists printed calls,
    anonymize_dataframe df w
    = (Ret {| nrows := nrows df;
              columns := map (redact_column (proc w)) (columns df) |},
       extend w printed calls).
Proof.
  intros H. destruct df as [n cols].
  apply (anonymize_columns_run cols [] n w H).
Qed.

Lemma dtype_eqb_object (d : dtype) : dtype_eqb d object = true <-> d = object.
Proof. destruct d; simpl; split; congruence. Qed.

Lemma redact_column_label (p : process) (c : text * Series) :
  fst (redact_column p c) = fst c.
Proof. unfold redact_column. now destruct (dtype_eqb _ _). Qed.

Lemma redact_column_length (p : process) (c : text * Series) :
  List.length (values (snd (redact_column p c))) = List.length (values (snd c)).
Proof.
  unfold redact_column. destruct (dtype_eqb _ _); simpl; [|reflexivity].
  apply length_map.
Qed.

Lemma redact_column_other (p : process) (c : text * Series) :
  dtype_of (snd c) <> object -> redact_column p c = c.
Proof.
  intros H. unfold redact_column.
  destruct (dtype_eqb _ _) eqn:E; [|reflexivity].
  apply dtype_eqb_object in E. contradiction.
Qed.

(** C5, as the code has it: on a table whose column labels are pairwise
    distinct, tabular anonymization returns a table with the same labels in
    the same order and the same row count, every column keeps its length,
    and every column that is not an [object] column is the column of the
    input. *)
Theorem anonymize_dataframe_preserves_shape (df : DataFrame) (w : world process) :
  NoDup (labels df) ->
  exists df' w',
    anonymize_dataframe df w = (Ret df', w')
    /\ labels df' = labels df
    /\ nrows df' = nrows df
    /\ files w' = files w
    /\ Forall2 (fun c c' =>
                  List.length (values (snd c')) = List.length (values (snd c))
                  /\ (dtype_of (snd c) <> object -> c' = c))
               (columns df) (columns df').
Proof.
  intros H. destruct (anonymize_dataframe_run df w H) as (pr & calls & E).
  eexists. eexists. split; [exact E|]. simpl. repeat split.
  - unfold labels. simpl. rewrite map_map. apply map_ext.
    intros c. apply redact_column_label.
  - clear E H. generalize (columns df). intros cols.
    induction cols as [|c cols IH]; simpl; constructor; [|exact IH].
    split; [apply redact_column_length|apply redact_column_other].
Qed.

(** ** Aadhaar normalisation *)

Lemma bind_run {A B : Type} (m : M A) (k : A -> M B) (w w' : world process) (a : A) :
  m w = (Ret a, w') -> bind m k w = k a w'.
Proof. intros H. unfold bind. now rewrite H. Qed.

Lemma map_outcome_format (strs : list text) :
  map_outcome format_value (map VStr strs)
  = Ret (map (fun x => VStr (aadhaar_format x)) strs).
Proof.
  induction strs as [|x strs IH]; simpl; [reflexivity|]. now rewrite IH.
Qed.

(** The normalisation block on a frame with distinct labels and an Aadhaar
    column whose values all have a string form: the column becomes an
    [object] column, each value the formatted digits of its string form;
    nothing else changes. *)
Lemma normalize_aadhaar_run (n : nat) (pre post : list (text * Series))
  (s : Series) (strs : list text) (w : world process) :
  NoDup (map fst (pre ++ (Aadhaar, s) :: post)) ->
  map_outcome py_str (values s) = Ret strs ->
  normalize_aadhaar {| nrows := n; columns := pre ++ (Aadhaar, s) :: post |} w
  = (Ret {| nrows := n;
            columns := pre ++ (Aadhaar,
                               {| dtype_of := object;
                                  values := map (fun x => VStr (aadhaar_format (strip_non_digits x))) strs |})
                           :: post |}, w).
Proof.
  intros Hnd Hstr. unfold normalize_aadhaar.
  replace (has_column _ Aadhaar) with true.
  2:{ symmetry. apply has_column_In. unfold labels. simpl.
      rewrite map_app, in_app_iff. right. now left. }
  unfold bind, lift, ret.
  rewrite (getitem_unique n Aadhaar s pre post _ Hnd).
  unfold astype_str. rewrite Hstr.
  rewrite (setitem_unique n Aadhaar s _ pre post Hnd).
  assert (Hnd' : forall s', NoDup (map fst (pre ++ (Aadhaar, s') :: post))).
  { intros s'. rewrite map_app in *. exact Hnd. }
  rewrite (getitem_unique n Aadhaar _ pre post _ (Hnd' _)).
  unfold apply_format, str_replace_non_digits. simpl values.
  rewrite map_map.
  rewrite <- (map_map strip_non_digits VStr), map_outcome_format.
  rewrite (setitem_unique n Aadhaar _ _ pre post (Hnd' _)).
  now rewrite map_map.
Qed.

Lemma normalize_aadhaar_absent (df : DataFrame) (w : world process) :
  ~ In Aadhaar (labels df) -> normalize_aadhaar df w = (Ret df, w).
Proof.
  intros H. unfold normalize_aadhaar.
  destruct (has_column df Aadhaar) eqn:E; [|reflexivity].
  apply has_column_In in E. contradiction.
Qed.

Lemma aadhaar_format_twelve (d : text) :
  List.length d = 12 ->
  aadhaar_format d
  = firstn 4 d ++ lit "-" ++ firstn 4 (skipn 4 d) ++ lit "-" ++ skipn 8 d
  /\ d = firstn 4 d ++ firstn 4 (skipn 4 d) ++ skipn 8 d
  /\ List.length (firstn 4 d) = 4
  /\ List.length (firstn 4 (skipn 4 d)) = 4
  /\ List.length (skipn 8 d) = 4.
Proof.
  intros H. unfold aadhaar_format, slice. rewrite H. simpl Nat.eqb. cbv iota.
  repeat split.
  - rewrite <- (firstn_skipn 4 d) at 1. f_equal.
    rewrite <- (firstn_skipn 4 (skipn 4 d)) at 1. f_equal.
    rewrite skipn_skipn. reflexivity.
  - rewrite length_firstn. lia.
  - rewrite length_firstn, length_skipn. lia.
  - rewrite length_skipn. lia.
Qed.

Lemma aadhaar_format_other (d : text) :
  List.length d <> 12 -> aadhaar_format d = d.
Proof.
  intros H. unfold aadhaar_format.
  destruct (Nat.eqb_spec (List.length d) 12); [contradiction|reflexivity].
Qed.

Lemma strip_non_digits_digits (s : text) :
  forallb is_decimal (strip_non_digits s) = true.
Proof.
  apply forallb_forall. intros c Hc. unfold strip_non_digits in Hc.
  now apply filter_In in Hc.
Qed.

(** C7, as the code has it: in a frame with distinct labels, the values
    of the Aadhaar column are replaced by the digits of their string forms,
    non-digit characters removed; when there are exactly 12 digits they are
    written in three dashed groups of four, and otherwise the digits are
    left without dashes.  No other column changes and nothing is printed or
    written. *)
Theorem aadhaar_column_normalised (n : nat) (pre post : list (text * Series))
  (s : Series) (strs : list text) (w : world process) :
  NoDup (map fst (pre ++ (Aadhaar, s) :: post)) ->
  map_outcome py_str (values s) = Ret strs ->
  normalize_aadhaar {| nrows := n; columns := pre ++ (Aadhaar, s) :: post |} w
  = (Ret {| nrows := n;
            columns := pre ++ (Aadhaar,
                               {| dtype_of := object;
                                  values := map (fun x => VStr (aadhaar_format (strip_non_digits x))) strs |})
                           :: post |}, w)
  /\ forall x, In x strs ->
       let d := strip_non_digits x in
       forallb is_decimal d = true
       /\ (List.length d = 12 ->
           aadhaar_format d
           = firstn 4 d ++ lit "-" ++ firstn 4 (skipn 4 d) ++ lit "-" ++ skipn 8 d
           /\ d = firstn 4 d ++ firstn 4 (skipn 4 d) ++ skipn 8 d
           /\ List.length (firstn 4 d) = 4
           /\ List.length (firstn 4 (skipn 4 d)) = 4
           /\ List.length (skipn 8 d) = 4)
       /\ (List.length d <> 12 -> aadhaar_format d = d).
Proof.
  intros Hnd Hstr. split; [now apply normalize_aadhaar_run|].
  intros x _ d. split; [apply strip_non_digits_digits|]. split.
  - apply aadhaar_format_twelve.
  - apply aadhaar_format_other.
Qed.

Lemma map_outcome_py_str_int (zs : list Z) :
  map_outcome py_str (map VInt zs) = Ret (map (fun z => lit (NilZero.string_of_int (Z.to_int z))) zs).
Proof.
  induction zs as [|z zs IH]; simpl; [reflexivity|].
  simpl in IH. now rewrite IH.
Qed.

(** ** [anonymize_file] *)

(** C6: when the extension of the input path, which is the lower-cased
    text after its last dot, is none of csv, xls, xlsx and pdf, the file
    orchestrator raises the unsupported-format error; by then it has printed
    the line naming the input, and it has loaded nothing, called no engine
    and written no file. *)
Theorem unsupported_extension_raises (input_path : text)
  (output_path : option text) (w : world process) :
  ~ In (extension input_path) [lit "csv"; lit "xls"; lit "xlsx"; lit "pdf"] ->
  anonymize_file input_path output_path w
  = (Raise (ValueError "❌ Unsupported file format. Only CSV and Excel are supported."),
     extend w [ReadingFrom input_path] [])
  /\ files (snd (anonymize_file input_path output_path w)) = files w
  /\ engine_log (snd (anonymize_file input_path output_path w)) = engine_log w.
Proof.
  intros H.
  assert (E : anonymize_file input_path output_path w
              = (Raise (ValueError "❌ Unsupported file format. Only CSV and Excel are supported."),
                 extend w [ReadingFrom input_path] [])).
  { unfold anonymize_file.
    rewrite (bind_run _ _ _ _ _ (print_run _ _)).
    rewrite !text_eqb_neq; [reflexivity| | | |];
      intros E; apply H; rewrite E; simpl; auto 6. }
  rewrite E. simpl. rewrite app_nil_r. auto.
Qed.

(** What is done with the result leaves a unit behind. *)
Lemma emit_table_run (ext : text) (result_df : DataFrame)
  (output_path : option text) (w : world process) :
  exists w',
    (match output_path with
     | Some out =>
         if truthy output_path
         then bind (if text_eqb ext (lit "csv")
                    then write_file out (CsvFile result_df)
                    else write_file out (ExcelFile result_df))
                   (fun _ => print (SavedTo out))
         else ret tt
     | None => ret tt
     end) w = (Ret tt, w')
    /\ proc w' = proc w.
Proof.
  destruct output_path as [out|]; [|now exists w].
  destruct (truthy (Some out)); [|now exists w].
  unfold bind, write_file, print.
  destruct (text_eqb ext (lit "csv")); eexists; split; reflexivity.
Qed.

(** The tabular path after the load, for a frame that normalisation turns
    into [df1]. *)
Lemma anonymize_table_run (ext : text) (df df1 : DataFrame)
  (output_path : option text) (w : world process) :
  (forall w0, normalize_aadhaar df w0 = (Ret df1, w0)) ->
  NoDup (labels df1) ->
  exists w',
    anonymize_table ext df output_path w
    = (Ret (Frame {| nrows := nrows df1;
                     columns := map (redact_column (proc w)) (columns df1) |}),
       w').
Proof.
  intros Hn Hnd. unfold anonymize_table.
  rewrite (bind_run _ _ _ _ _ (print_run _ _)).
  rewrite (bind_run _ _ _ _ _ (print_run _ _)).
  rewrite (bind_run _ _ _ _ _ (Hn _)).
  rewrite (bind_run _ _ _ _ _ (print_run _ _)).
  match goal with
  | |- context [bind (anonymize_dataframe df1) _ ?w1] =>
      destruct (anonymize_dataframe_run df1 w1 Hnd) as (pr & calls & E)
  end.
  rewrite (bind_run _ _ _ _ _ E).
  rewrite (bind_run _ _ _ _ _ (print_run _ _)).
  rewrite (bind_run _ _ _ _ _ (print_run _ _)).
  match goal with
  | |- context [bind ?m _ ?w1] =>
      destruct (emit_table_run ext
                  {| nrows := nrows df1;
                     columns := map (redact_column (proc w)) (columns df1) |}
                  output_path w1) as (w' & E' & _)
  end.
  simpl proc in *. rewrite (bind_run _ _ _ _ _ E').
  exists w'. reflexivity.
Qed.

(** C10: in a tabular input with a column named Aadhaar, of whatever
    dtype, whose values all have a string form, that column comes back as
    an [object] column, in place, each value the text redaction of the
    normalised string form of the input value; the other columns are
    redacted as [anonymize_dataframe] does.  The labels of a loaded frame
    are distinct, as [read_csv] and [read_excel] make them. *)
Theorem aadhaar_column_coerced_then_redacted (input_path : text)
  (output_path : option text) (w : world process) (df : DataFrame)
  (pre post : list (text * Series)) (s : Series) (strs : list text) :
  (extension input_path = lit "csv" /\ read_csv input_path = Ret df)
  \/ ((extension input_path = lit "xls" \/ extension input_path = lit "xlsx")
      /\ read_excel input_path = Ret df) ->
  NoDup (labels df) ->
  columns df = pre ++ (Aadhaar, s) :: post ->
  map_outcome py_str (values s) = Ret strs ->
  exists w',
    anonymize_file input_path output_path w
    = (Ret (Frame
              {| nrows := nrows df;
                 columns :=
                   map (redact_column (proc w)) pre
                   ++ (Aadhaar,
                       {| dtype_of := object;
                          values := map (fun x => redacted (proc w)
                                                    (VStr (aadhaar_format (strip_non_digits x))))
                                        strs |})
                   :: map (redact_column (proc w)) post |}), w').
Proof.
  intros Hload Hnd Hcols Hstr.
  destruct df as [n cols]. simpl in Hcols. subst cols. unfold labels in Hnd.
  simpl in Hnd.
  set (s1 := {| dtype_of := object;
                values := map (fun x => VStr (aadhaar_format (strip_non_digits x))) strs |}).
  assert (Hnd1 : NoDup (labels {| nrows := n; columns := pre ++ (Aadhaar, s1) :: post |})).
  { unfold labels. simpl. rewrite map_app in *. exact Hnd. }
  assert (Hn : forall w0,
             normalize_aadhaar {| nrows := n; columns := pre ++ (Aadhaar, s) :: post |} w0
             = (Ret {| nrows := n; columns := pre ++ (Aadhaar, s1) :: post |}, w0)).
  { intros w0. now apply normalize_aadhaar_run. }
  assert (Hrun : forall ext w1, proc w1 = proc w ->
            exists w',
              anonymize_table ext {| nrows := n; columns := pre ++ (Aadhaar, s) :: post |}
                              output_path w1
              = (Ret (Frame
                        {| nrows := n;
                           columns :=
                             map (redact_column (proc w)) pre
                             ++ (Aadhaar,
                                 {| dtype_of := object;
                                    values := map (fun x => redacted (proc w)
                                                              (VStr (aadhaar_format (strip_non_digits x))))
                                                  strs |})
                             :: map (redact_column (proc w)) post |}), w')).
  { intros ext w1 Hp.
    destruct (anonymize_table_run ext _ _ output_path w1 Hn Hnd1) as (w' & E).
    exists w'. rewrite E, Hp. simpl. rewrite map_app. simpl.
    unfold redact_column at 2. simpl. now rewrite map_map. }
  unfold anonymize_file.
  rewrite (bind_run _ _ _ _ _ (print_run _ _)).
  destruct Hload as [[Hext Hread]|[Hext Hread]].
  - rewrite Hext. simpl text_eqb. cbv iota.
    unfold bind at 1, lift. rewrite Hread.
    apply Hrun. reflexivity.
  - destruct Hext as [Hext|Hext]; rewrite Hext; simpl text_eqb; cbv iota;
      unfold bind at 1, lift; rewrite Hread; apply Hrun; reflexivity.
Qed.

(** ** A document with no output path *)

(** The document path with no output path: the text returned is the
    redaction of the extracted text, and no file is written. *)
Lemma anonymize_file_pdf (input_path : text) (pages : list (option text))
  (w : world process) :
  extension input_path = lit "pdf" ->
  pdf_pages input_path = Ret pages ->
  exists w',
    anonymize_file input_path None w
    = (Ret (Text (redacted (proc w) (VStr (extract_all_text pages)))), w')
    /\ files w' = files w.
Proof.
  intros Hext Hpages. unfold anonymize_file.
  rewrite (bind_run _ _ _ _ _ (print_run _ _)).
  rewrite Hext.
  change (text_eqb (lit "pdf") (lit "csv")) with false.
  change (text_eqb (lit "pdf") (lit "xls") || text_eqb (lit "pdf") (lit "xlsx"))
    with false.
  change (text_eqb (lit "pdf") (lit "pdf")) with true. cbv iota.
  unfold anonymize_pdf. unfold bind at 1, lift. rewrite Hpages. cbv zeta.
  rewrite (bind_run _ _ _ _ _ (print_run _ _)).
  rewrite (bind_run _ _ _ _ _ (print_run _ _)).
  rewrite (bind_run _ _ _ _ _ (print_run _ _)).
  match goal with
  | |- context [bind (_anonymize_text ?v) _ ?w1] =>
      destruct (anonymize_text_run v w1) as [calls E]
  end.
  rewrite (bind_run _ _ _ _ _ E). unfold bind, ret. simpl.
  eexists. split; reflexivity.
Qed.

(** * Further properties *)

(** ** Stripping *)

Lemma lstrip_split (s : text) :
  exists z, s = z ++ lstrip s /\ forallb isspace z = true.
Proof.
  induction s as [|c s (z & E & Hz)]; [now exists []|].
  simpl. destruct (isspace c) eqn:Ec.
  - exists (c :: z). simpl. rewrite Ec, Hz. split; [now f_equal|reflexivity].
  - now exists [].
Qed.

Lemma lstrip_head (s : text) :
  match lstrip s with
  | [] => True
  | c :: _ => isspace c = false
  end.
Proof.
  induction s as [|c s IH]; simpl; [exact I|].
  destruct (isspace c) eqn:Ec; [exact IH|exact Ec].
Qed.

Lemma lstrip_nil_whitespace (s : text) :
  lstrip s = [] -> forallb isspace s = true.
Proof.
  intros H. destruct (lstrip_split s) as (z & E & Hz).
  rewrite H, app_nil_r in E. now subst.
Qed.

Lemma forallb_rev (f : N -> bool) (s : text) :
  forallb f (rev s) = forallb f s.
Proof.
  induction s as [|c s IH]; simpl; [reflexivity|].
  rewrite forallb_app, IH. simpl. rewrite andb_true_r. apply andb_comm.
Qed.

Lemma strip_nil_whitespace (s : text) :
  strip s = [] -> forallb isspace s = true.
Proof.
  unfold strip, rstrip. intros H.
  assert (Hr : lstrip (rev (lstrip s)) = []).
  { rewrite <- (rev_involutive (lstrip (rev (lstrip s)))). now rewrite H. }
  apply lstrip_nil_whitespace in Hr. rewrite forallb_rev in Hr.
  pose proof (lstrip_head s) as Hh.
  destruct (lstrip s) as [|c t] eqn:E.
  - now apply lstrip_nil_whitespace.
  - simpl in Hr. rewrite Hh in Hr. discriminate.
Qed.

Lemma strip_is_bare (s : text) : bare (strip s) = true.
Proof.
  unfold strip, rstrip.
  pose proof (lstrip_head s) as Hx.
  destruct (lstrip_split (rev (lstrip s))) as (z & E & Hz).
  pose proof (lstrip_head (rev (lstrip s))) as Hy.
  set (x := lstrip s) in *. set (y := lstrip (rev x)) in *.
  destruct y as [|d y'] eqn:Ey; [reflexivity|].
  assert (Ex : x = rev (d :: y') ++ rev z).
  { rewrite <- rev_app_distr, <- E. symmetry. apply rev_involutive. }
  assert (Hne : rev (d :: y') <> []).
  { simpl. intros H. apply app_eq_nil in H as [_ H]. discriminate. }
  destruct (rev (d :: y')) as [|c r] eqn:Er; [contradiction|].
  unfold bare. apply andb_true_iff. split; apply negb_true_iff.
  - rewrite Ex in Hx. exact Hx.
  - replace (last (c :: r) c) with d; [exact Hy|].
    rewrite <- Er. simpl. now rewrite last_last.
Qed.

Lemma strip_idempotent (s : text) : strip (strip s) = strip s.
Proof. apply strip_bare, strip_is_bare. Qed.

(** ** The calls of [_anonymize_text] *)

(** X1: On a value whose string form has a character that is not whitespace,
    the text redaction asks for detection once, on the stripped text, in
    English and for the ten entity types; it calls the redaction engine
    only when there are results, once, with the operators of the source;
    and what it returns is a string. *)
Theorem anonymize_text_calls (v : value) (s : text) (w : world process) :
  py_str v = Ret s ->
  existsb (fun c => negb (isspace c)) s = true ->
  strip s <> []
  /\ _anonymize_text v w
     = match analyze (proc w) (strip s) "en" ENTITIES with
       | [] =>
           (Ret (VStr (strip s)),
            extend w [] [Analyze (strip s) "en" ENTITIES])
       | r :: rs =>
           (Ret (VStr (anonymize (proc w) (strip s) (r :: rs) OPERATORS)),
            extend w [] [Analyze (strip s) "en" ENTITIES;
                         Anonymize (strip s) (r :: rs) OPERATORS])
       end.
Proof.
  intros Hs Hc.
  assert (Hne : strip s <> []).
  { intros H. apply strip_nil_whitespace in H.
    apply existsb_exists in Hc as (c & Hin & Hc).
    rewrite forallb_forall in H. rewrite (H c Hin) in Hc. discriminate. }
  split; [exact Hne|].
  unfold _anonymize_text. rewrite Hs.
  destruct (strip s) as [|c t] eqn:Es; [contradiction|].
  unfold bind, call_analyze, call_anonymize, bind, log_call, ret, extend. simpl.
  destruct (analyze (proc w) (c :: t) "en" ENTITIES) as [|r rs]; simpl.
  - now rewrite app_nil_r.
  - now rewrite app_nil_r, <- app_assoc.
Qed.

(** X2: The text redaction sees only the stripped string form of its input:
    two values whose string forms agree once stripped (a number and its
    decimal string, a text and the same text between spaces) have the same
    return value and the same effect on the world; in particular stripping
    beforehand changes nothing. *)
Theorem anonymize_text_of_stripped_form (v1 v2 : value) (s1 s2 : text)
  (w : world process) :
  py_str v1 = Ret s1 -> py_str v2 = Ret s2 -> strip s1 = strip s2 ->
  _anonymize_text v1 w = _anonymize_text v2 w
  /\ _anonymize_text (VStr (strip s1)) w = _anonymize_text v1 w.
Proof.
  intros H1 H2 E. unfold _anonymize_text. split.
  - rewrite H1, H2. cbv zeta. now rewrite E.
  - rewrite H1. change (py_str (VStr (strip s1))) with (Ret (strip s1)).
    cbv beta iota zeta. now rewrite strip_idempotent.
Qed.

(** ** What writes no file *)

Lemma wn_ret {A : Type} (a : A) : writes_nothing (ret a).
Proof. intros w. split; reflexivity. Qed.

Lemma wn_raise {A : Type} (e : exn) : writes_nothing (@raise A e).
Proof. intros w. split; reflexivity. Qed.

Lemma wn_lift {A : Type} (o : outcome A) : writes_nothing (lift o).
Proof. intros w. split; reflexivity. Qed.

Lemma wn_print (d : diag) : writes_nothing (print d).
Proof. intros w. split; reflexivity. Qed.

Lemma wn_bind {A B : Type} (m : M A) (k : A -> M B) :
  writes_nothing m -> (forall a, writes_nothing (k a)) ->
  writes_nothing (bind m k).
Proof.
  intros Hm Hk w. unfold bind. destruct (Hm w) as [Hf Hp].
  destruct (m w) as [[a|e] w1]; simpl in *.
  - destruct (Hk a w1) as [Hf' Hp']. split; congruence.
  - split; assumption.
Qed.

Lemma wn_anonymize_text (v : value) : writes_nothing (_anonymize_text v).
Proof.
  intros w. destruct (anonymize_text_run v w) as [calls E].
  rewrite E. split; reflexivity.
Qed.

Lemma wn_mapM {A B : Type} (f : A -> M B) (l : list A) :
  (forall a, writes_nothing (f a)) -> writes_nothing (mapM f l).
Proof.
  intros Hf. induction l as [|x l IH]; simpl; [apply wn_ret|].
  apply wn_bind; [apply Hf|]. intros y.
  apply wn_bind; [exact IH|]. intros ys. apply wn_ret.
Qed.

Lemma wn_anonymize_columns (cols : list text) (df : DataFrame) :
  writes_nothing (anonymize_columns cols df).
Proof.
  revert df; induction cols as [|col rest IH]; intros df; simpl;
    [apply wn_ret|].
  apply wn_bind; [apply wn_lift|]. intros s.
  apply wn_bind; [|intros df'; apply IH].
  destruct (dtype_eqb (dtype_of s) object); [|apply wn_ret].
  apply wn_bind; [apply wn_print|]. intros _.
  apply wn_bind; [|intros s'; apply wn_ret].
  unfold apply_anonymize_text.
  apply wn_bind; [|intros vs; apply wn_ret].
  apply wn_mapM. apply wn_anonymize_text.
Qed.

Lemma wn_anonymize_dataframe (df : DataFrame) :
  writes_nothing (anonymize_dataframe df).
Proof. apply wn_anonymize_columns. Qed.

Lemma wn_normalize_aadhaar (df : DataFrame) :
  writes_nothing (normalize_aadhaar df).
Proof.
  unfold normalize_aadhaar. destruct (has_column df Aadhaar); [|apply wn_ret].
  apply wn_bind; [apply wn_lift|]. intros s.
  apply wn_bind; [apply wn_lift|]. intros s1.
  apply wn_bind; [apply wn_lift|]. intros s2.
  apply wn_bind; [apply wn_lift|]. intros s3. apply wn_ret.
Qed.

(** ** What [anonymize_dataframe] does to the cells and to the log *)

Lemma anonymize_columns_trace (post pre : list (text * Series)) (n : nat)
  (w : world process) :
  NoDup (map fst (pre ++ post)) ->
  exists calls,
    anonymize_columns (map fst post) {| nrows := n; columns := pre ++ post |} w
    = (Ret {| nrows := n;
              columns := pre ++ map (redact_column (proc w)) post |},
       extend w (map AnonymizingColumn (object_labels post)) calls).
Proof.
  revert pre w; induction post as [|[l s] post IH]; intros pre w Hnd.
  - exists []. simpl. unfold ret. now rewrite extend_nil.
  - simpl map at 1. cbn [anonymize_columns fst].
    unfold bind at 1. unfold lift.
    rewrite (getitem_unique n l s pre post _ Hnd).
    unfold object_labels. cbn [filter map snd fst].
    unfold redact_column at 1. cbn [snd fst].
    destruct (dtype_eqb (dtype_of s) object) eqn:Ed.
    + unfold bind at 1. unfold bind at 1. rewrite print_run.
      unfold apply_anonymize_text. unfold bind at 1. unfold bind at 1.
      destruct (mapM_anonymize_text (values s) (extend w [AnonymizingColumn l] []))
        as [c1 H1].
      rewrite H1. unfold ret at 1. unfold ret at 1.
      rewrite (setitem_unique n l s _ pre post Hnd). simpl proc.
      set (s' := {| dtype_of := object; values := map (redacted (proc w)) (values s) |}).
      assert (Hnd' : NoDup (map fst ((pre ++ [(l, s')]) ++ post))).
      { rewrite <- app_assoc. simpl. rewrite map_app in *. exact Hnd. }
      destruct (IH (pre ++ [(l, s')])
                   (extend (extend w [AnonymizingColumn l] []) [] c1) Hnd')
        as (c2 & H2).
      rewrite <- !app_assoc in H2. simpl in H2.
      rewrite H2. rewrite !extend_extend. simpl.
      exists (c1 ++ c2). reflexivity.
    + unfold bind at 1. unfold ret at 1.
      assert (Hnd' : NoDup (map fst ((pre ++ [(l, s)]) ++ post))).
      { now rewrite <- app_assoc. }
      destruct (IH (pre ++ [(l, s)]) w Hnd') as (c2 & H2).
      rewrite <- !app_assoc in H2. simpl in H2.
      rewrite H2. exists c2. reflexivity.
Qed.

(** X3: On a frame with distinct labels, tabular anonymization replaces every
    cell of every [object] column by its text redaction, in place, keeps the
    other columns, and logs one line for each [object] column, in column
    order; a cell of an [object] column that has a string form comes back as
    a string, whatever it was. *)
Theorem anonymize_dataframe_cells (df : DataFrame) (w : world process) :
  NoDup (labels df) ->
  (exists calls,
     anonymize_dataframe df w
     = (Ret {| nrows := nrows df;
               columns := map (redact_column (proc w)) (columns df) |},
        extend w (map AnonymizingColumn (object_labels (columns df))) calls))
  /\ (forall l s, In (l, s) (columns df) -> dtype_of s = object ->
        redact_column (proc w) (l, s)
        = (l, {| dtype_of := object;
                 values := map (redacted (proc w)) (values s) |}))
  /\ (forall v t, py_str v = Ret t -> exists t', redacted (proc w) v = VStr t').
Proof.
  intros H. split; [|split].
  - destruct df as [n cols]. apply (anonymize_columns_trace cols [] n w H).
  - intros l s _ Hs. unfold redact_column. simpl. now rewrite Hs.
  - intros v t Hv. unfold redacted, _anonymize_text. rewrite Hv.
    destruct (strip t) as [|c t0]; [now eexists|].
    unfold bind, call_analyze, call_anonymize, bind, log_call, ret. simpl.
    destruct (analyze _ _ _ _); simpl; now eexists.
Qed.

(** ** A repeated label *)

Lemma select_In (df : DataFrame) (c : text) :
  In c (labels df) -> select df c <> [].
Proof.
  unfold labels, select. intros H.
  induction (columns df) as [|[k s] cols IH]; simpl in *; [contradiction|].
  destruct (text_eqb k c) eqn:E; [discriminate|].
  destruct H as [H|H]; [|now apply IH].
  subst. now rewrite text_eqb_refl in E.
Qed.

Lemma setitem_labels (df : DataFrame) (col : text) (s : Series) :
  has_column df col = true -> labels (setitem df col s) = labels df.
Proof.
  intros H. unfold setitem. rewrite H. unfold labels. simpl.
  rewrite map_map. apply map_ext. intros c.
  now destruct (text_eqb (fst c) col).
Qed.

Lemma setitem_select_length (df : DataFrame) (col c : text) (s : Series) :
  has_column df col = true ->
  List.length (select (setitem df col s) c) = List.length (select df c).
Proof.
  intros H. unfold setitem. rewrite H. unfold select. simpl.
  rewrite !length_map.
  induction (columns df) as [|[k x] cols IH]; simpl; [reflexivity|].
  destruct (text_eqb k col); simpl; destruct (text_eqb k c); simpl;
    now rewrite IH.
Qed.

Lemma anonymize_columns_repeated (cols : list text) (df : DataFrame)
  (w : world process) :
  (forall c, In c cols -> In c (labels df)) ->
  (exists c, In c cols /\ 2 <= List.length (select df c)) ->
  exists w',
    anonymize_columns cols df w
    = (Raise (AttributeError "'DataFrame' object has no attribute 'dtype'"), w').
Proof.
  revert df w; induction cols as [|c0 rest IH]; intros df w Hin (c & Hc & Hlen).
  - contradiction.
  - simpl. unfold bind at 1. unfold lift, getitem.
    pose proof (select_In df c0 (Hin c0 (or_introl eq_refl))) as Hne.
    destruct (select df c0) as [|s [|s2 more]] eqn:Es; [contradiction| |].
    + assert (Hrest : In c rest).
      { destruct Hc as [->|Hc]; [|exact Hc]. rewrite Es in Hlen. simpl in Hlen. lia. }
      assert (Hcol : has_column df c0 = true).
      { apply has_column_In. apply Hin. now left. }
      destruct (dtype_eqb (dtype_of s) object).
      * unfold bind at 1. unfold bind at 1. rewrite print_run.
        unfold apply_anonymize_text. unfold bind at 1. unfold bind at 1.
        destruct (mapM_anonymize_text (values s) (extend w [AnonymizingColumn c0] []))
          as [c1 H1].
        rewrite H1. unfold ret at 1. unfold ret at 1.
        apply IH.
        -- intros x Hx. rewrite (setitem_labels _ _ _ Hcol). apply Hin. now right.
        -- exists c. split; [exact Hrest|].
           now rewrite (setitem_select_length _ _ _ _ Hcol).
      * unfold bind at 1. unfold ret at 1. apply IH.
        -- intros x Hx. apply Hin. now right.
        -- exists c. split; assumption.
    + now exists w.
Qed.

(** X4: Whenever two columns of the frame have the same label, tabular
    anonymization raises [AttributeError] and writes no file. *)
Theorem anonymize_dataframe_repeated_label (df : DataFrame) (w : world process)
  (l : text) (s1 s2 : Series) (a b c : list (text * Series)) :
  columns df = a ++ (l, s1) :: b ++ (l, s2) :: c ->
  exists w',
    anonymize_dataframe df w
    = (Raise (AttributeError "'DataFrame' object has no attribute 'dtype'"), w')
    /\ files w' = files w.
Proof.
  intros Hcols.
  assert (Hlen : 2 <= List.length (select df l)).
  { unfold select. rewrite Hcols, length_map, !filter_app. simpl.
    rewrite text_eqb_refl, filter_app. simpl. rewrite text_eqb_refl.
    rewrite !length_app. simpl. rewrite !length_app. simpl. lia. }
  assert (Hl : In l (labels df)).
  { unfold labels. rewrite Hcols, map_app, in_app_iff. right. now left. }
  destruct (anonymize_columns_repeated (labels df) df w (fun c H => H)
              (ex_intro _ l (conj Hl Hlen))) as [w' E].
  exists w'. split; [exact E|].
  pose proof (wn_anonymize_dataframe df w) as [Hf _].
  unfold anonymize_dataframe in Hf. rewrite E in Hf. exact Hf.
Qed.

(** ** Normalising twice *)

Lemma filter_decimal_fixed (d : text) :
  forallb is_decimal d = true -> strip_non_digits d = d.
Proof.
  unfold strip_non_digits. induction d as [|c d IH]; simpl; [reflexivity|].
  intros H. apply andb_true_iff in H as [Hc Hd]. rewrite Hc. f_equal. now apply IH.
Qed.

Lemma strip_non_digits_app (a b : text) :
  strip_non_digits (a ++ b) = strip_non_digits a ++ strip_non_digits b.
Proof. apply filter_app. Qed.

Lemma normalised_value_fixed (x : text) :
  aadhaar_format (strip_non_digits (aadhaar_format (strip_non_digits x)))
  = aadhaar_format (strip_non_digits x).
Proof.
  set (d := strip_non_digits x).
  assert (Hd : strip_non_digits d = d).
  { apply filter_decimal_fixed, strip_non_digits_digits. }
  destruct (Nat.eq_dec (List.length d) 12) as [H12|H12].
  - destruct (aadhaar_format_twelve d H12) as (Ef & Ed & _).
    assert (Hs : strip_non_digits (aadhaar_format d) = d).
    { rewrite Ef.
      rewrite (strip_non_digits_app (firstn 4 d)).
      rewrite (strip_non_digits_app (lit "-")).
      rewrite (strip_non_digits_app (firstn 4 (skipn 4 d))).
      rewrite (strip_non_digits_app (lit "-")).
      change (strip_non_digits (lit "-")) with (@nil N).
      rewrite !app_nil_l.
      rewrite <- (strip_non_digits_app (firstn 4 (skipn 4 d))).
      rewrite <- (strip_non_digits_app (firstn 4 d)).
      rewrite <- Ed. exact Hd. }
    now rewrite Hs.
  - rewrite (aadhaar_format_other d H12), Hd.
    now apply aadhaar_format_other.
Qed.

(** X5: Normalising an Aadhaar column that is already normalised changes
    nothing: the normalisation block, run on its own result, returns that
    result. *)
Theorem normalize_aadhaar_idempotent (n : nat) (pre post : list (text * Series))
  (s : Series) (strs : list text) (w : world process) :
  NoDup (map fst (pre ++ (Aadhaar, s) :: post)) ->
  map_outcome py_str (values s) = Ret strs ->
  exists df1,
    normalize_aadhaar {| nrows := n; columns := pre ++ (Aadhaar, s) :: post |} w
    = (Ret df1, w)
    /\ normalize_aadhaar df1 w = (Ret df1, w).
Proof.
  intros Hnd Hstr. eexists.
  split; [exact (normalize_aadhaar_run n pre post s strs w Hnd Hstr)|].
  set (f := fun x => aadhaar_format (strip_non_digits x)).
  assert (Hnd' : forall s', NoDup (map fst (pre ++ (Aadhaar, s') :: post))).
  { intros s'. rewrite map_app in *. exact Hnd. }
  rewrite (normalize_aadhaar_run n pre post _ (map f strs) w (Hnd' _)).
  - rewrite map_map.
    rewrite (map_ext (fun x => VStr (aadhaar_format (strip_non_digits (f x))))
                     (fun x => VStr (aadhaar_format (strip_non_digits x))));
      [reflexivity|].
    intros x. unfold f. now rewrite normalised_value_fixed.
  - simpl. clear. induction strs as [|x strs IH]; simpl; [reflexivity|].
    simpl in IH. now rewrite IH.
Qed.

(** ** The branches of [anonymize_file] *)

Lemma anonymize_file_csv (input_path : text) (output_path : option text)
  (w : world process) :
  extension input_path = lit "csv" ->
  anonymize_file input_path output_path w
  = bind (lift (read_csv input_path))
         (fun df => anonymize_table (lit "csv") df output_path)
         (extend w [ReadingFrom input_path] []).
Proof.
  intros H. unfold anonymize_file.
  rewrite (bind_run _ _ _ _ _ (print_run _ _)). rewrite H.
  change (text_eqb (lit "csv") (lit "csv")) with true. reflexivity.
Qed.

Lemma anonymize_file_excel (input_path : text) (output_path : option text)
  (w : world process) :
  extension input_path = lit "xls" \/ extension input_path = lit "xlsx" ->
  anonymize_file input_path output_path w
  = bind (lift (read_excel input_path))
         (fun df => anonymize_table (extension input_path) df output_path)
         (extend w [ReadingFrom input_path] []).
Proof.
  intros H. unfold anonymize_file.
  rewrite (bind_run _ _ _ _ _ (print_run _ _)).
  destruct H as [H|H]; rewrite H.
  - change (text_eqb (lit "xls") (lit "csv")) with false.
    change (text_eqb (lit "xls") (lit "xls")) with true. reflexivity.
  - change (text_eqb (lit "xlsx") (lit "csv")) with false.
    change (text_eqb (lit "xlsx") (lit "xlsx")) with true.
    rewrite orb_true_r. reflexivity.
Qed.

Lemma anonymize_file_document (input_path : text) (output_path : option text)
  (w : world process) :
  extension input_path = lit "pdf" ->
  anonymize_file input_path output_path w
  = anonymize_pdf input_path output_path (extend w [ReadingFrom input_path] []).
Proof.
  intros H. unfold anonymize_file.
  rewrite (bind_run _ _ _ _ _ (print_run _ _)). rewrite H.
  change (text_eqb (lit "pdf") (lit "csv")) with false.
  change (text_eqb (lit "pdf") (lit "xls") || text_eqb (lit "pdf") (lit "xlsx"))
    with false.
  change (text_eqb (lit "pdf") (lit "pdf")) with true. reflexivity.
Qed.

(** X6: When the loader of the input's format raises, the file orchestrator
    raises the same exception; it has printed the line naming the input and
    nothing else, called no engine and written no file. *)
Theorem loader_failure_propagates (input_path : text)
  (output_path : option text) (w : world process) (e : exn) :
  (extension input_path = lit "csv" /\ read_csv input_path = Raise e)
  \/ ((extension input_path = lit "xls" \/ extension input_path = lit "xlsx")
      /\ read_excel input_path = Raise e)
  \/ (extension input_path = lit "pdf" /\ pdf_pages input_path = Raise e) ->
  anonymize_file input_path output_path w
  = (Raise e, extend w [ReadingFrom input_path] []).
Proof.
  intros [[Hext Hr]|[[Hext Hr]|[Hext Hr]]].
  - rewrite (anonymize_file_csv _ _ _ Hext). unfold bind, lift. now rewrite Hr.
  - rewrite (anonymize_file_excel _ _ _ Hext). unfold bind, lift. now rewrite Hr.
  - rewrite (anonymize_file_document _ _ _ Hext). unfold anonymize_pdf.
    unfold bind at 1. unfold lift. now rewrite Hr.
Qed.

(** ** The extension *)

Lemma split_nonempty (sep : N) (s : text) : split sep s <> [].
Proof.
  induction s as [|c s IH]; simpl; [discriminate|].
  destruct (N.eqb c sep); [discriminate|].
  destruct (split sep s); [contradiction|discriminate].
Qed.

Lemma split_no_separator (sep : N) (s : text) :
  ~ In sep s -> split sep s = [s].
Proof.
  induction s as [|c s IH]; simpl; [reflexivity|].
  intros H. destruct (N.eqb_spec c sep) as [->|_]; [exfalso; apply H; now left|].
  rewrite IH; [reflexivity|]. intros Hin. apply H. now right.
Qed.

Lemma split_before_last (sep : N) (p e : text) :
  ~ In sep e ->
  exists f fs, split sep (p ++ sep :: e) = (f :: fs) ++ [e].
Proof.
  intros He. induction p as [|c p (f & fs & IH)]; simpl.
  - rewrite N.eqb_refl, (split_no_separator sep e He). now exists [], [].
  - rewrite IH. destruct (N.eqb c sep).
    + now exists [], (f :: fs).
    + now exists (c :: f), fs.
Qed.

Lemma last_split_after (sep : N) (p e : text) :
  ~ In sep e -> last (split sep (p ++ sep :: e)) [] = e.
Proof.
  intros He. destruct (split_before_last sep p e He) as (f & fs & E).
  rewrite E. apply last_last.
Qed.

(** X7: The extension is what follows the last dot of the path, lower-cased;
    a path without a dot is its own extension. *)
Theorem extension_after_last_dot :
  (forall p e, ~ In 46%N e -> extension (p ++ 46%N :: e) = lower e)
  /\ (forall p, ~ In 46%N p -> extension p = lower p)
  /\ (forall e, forallb is_ascii e = true -> lower e = map ascii_lower e).
Proof.
  split; [|split].
  - intros p e He. unfold extension. now rewrite (last_split_after 46 p e He).
  - intros p Hp. unfold extension. now rewrite (split_no_separator 46 p Hp).
  - intros e He. unfold lower. now rewrite He.
Qed.

(** ** The path of the text file *)

Lemma replace_from_skip (old new s : text) (k : nat) :
  replace_from old new k s = replace_from old new 0 (skipn k s).
Proof.
  revert k; induction s as [|c s IH]; intros k.
  - now destruct k.
  - destruct k as [|k]; [reflexivity|]. simpl replace_from at 1. simpl skipn.
    apply IH.
Qed.

Lemma replace_absent (old new s : text) :
  occurs old s = false -> replace old new s = s.
Proof.
  unfold replace. induction s as [|c s IH]; [reflexivity|].
  simpl occurs. intros H. apply orb_false_iff in H as [H1 H2].
  simpl replace_from. change (match old with
                              | [] => true
                              | x :: pre' => (x =? c)%N && starts_with pre' s
                              end) with (starts_with old (c :: s)).
  rewrite H1. f_equal. now apply IH.
Qed.

Lemma replace_suffix (old new stem : text) (c0 : N) (rest : text) :
  old = c0 :: rest -> ~ In c0 stem ->
  replace old new (stem ++ old) = stem ++ new.
Proof.
  intros -> Hs. unfold replace. induction stem as [|c stem IH].
  - simpl app. simpl replace_from.
    rewrite N.eqb_refl. simpl andb.
    assert (Hsw : forall l : text, starts_with l l = true).
    { induction l as [|x l IHl]; simpl; [reflexivity|].
      now rewrite N.eqb_refl, IHl. }
    rewrite Hsw. cbv iota. rewrite replace_from_skip.
    simpl List.length. rewrite Nat.sub_0_r.
    rewrite skipn_all. simpl. now rewrite app_nil_r.
  - simpl app. simpl replace_from.
    destruct (N.eqb_spec c0 c) as [->|_]; [exfalso; apply Hs; now left|].
    simpl andb. cbv iota. f_equal. apply IH. intros Hin. apply Hs. now right.
Qed.

(** X8: The text file of a document goes to the output path with every
    [.pdf] in it replaced: an output path in which [.pdf] does not occur is
    used as it is, and a path that is a dot-free stem followed by [.pdf]
    becomes the stem followed by [_anonymized.txt]. *)
Theorem text_file_path :
  (forall out, occurs (lit ".pdf") out = false ->
     replace (lit ".pdf") (lit "_anonymized.txt") out = out)
  /\ (forall stem, ~ In 46%N stem ->
        replace (lit ".pdf") (lit "_anonymized.txt") (stem ++ lit ".pdf")
        = stem ++ lit "_anonymized.txt").
Proof.
  split.
  - intros out H. now apply replace_absent.
  - intros stem H.
    exact (replace_suffix (lit ".pdf") (lit "_anonymized.txt") stem 46%N
             (lit "pdf") eq_refl H).
Qed.

(** ** What [anonymize_file] writes *)

Lemma bind_wn {A B : Type} (m : M A) (k : A -> M B) (w : world process) :
  writes_nothing m ->
  (exists e w1, bind m k w = (Raise e, w1)
                /\ files w1 = files w /\ proc w1 = proc w)
  \/ (exists a w1, m w = (Ret a, w1) /\ bind m k w = k a w1
                   /\ files w1 = files w /\ proc w1 = proc w).
Proof.
  intros Hm. destruct (Hm w) as [Hf Hp]. unfold bind.
  destruct (m w) as [[a|e] w1]; simpl in *.
  - right. exists a, w1. auto.
  - left. exists e, w1. auto.
Qed.

Lemma redacted_str (p : process) (t : text) :
  exists t', redacted p (VStr t) = VStr t'.
Proof.
  unfold redacted, _anonymize_text.
  assert (Hv : py_str (VStr t) = Ret t) by reflexivity. rewrite Hv.
  destruct (strip t) as [|c t0]; [now eexists|].
  unfold bind, call_analyze, call_anonymize, bind, log_call, ret. simpl.
  destruct (analyze _ _ _ _); simpl; now eexists.
Qed.

(** The files after the tabular path. *)
Lemma anonymize_table_files (ext : text) (df : DataFrame)
  (output_path : option text) (w : world process) :
  match anonymize_table ext df output_path w with
  | (Raise _, w') => files w' = files w
  | (Ret (Text _), _) => False
  | (Ret (Frame df'), w') =>
      files w'
      = files w ++ match output_path with
                   | Some out => if truthy output_path
                                 then [(out, written_table ext df')]
                                 else []
                   | None => []
                   end
  end.
Proof.
  unfold anonymize_table.
  rewrite (bind_run _ _ _ _ _ (print_run _ _)).
  rewrite (bind_run _ _ _ _ _ (print_run _ _)).
  match goal with
  | |- context [bind (normalize_aadhaar df) ?k ?w1] =>
      destruct (bind_wn (normalize_aadhaar df) k w1 (wn_normalize_aadhaar df))
        as [(e & w2 & E & Hf & _)|(df1 & w2 & _ & E & Hf & _)]
  end; rewrite E; [exact Hf|].
  rewrite (bind_run _ _ _ _ _ (print_run _ _)).
  match goal with
  | |- context [bind (anonymize_dataframe df1) ?k ?w1] =>
      destruct (bind_wn (anonymize_dataframe df1) k w1 (wn_anonymize_dataframe df1))
        as [(e & w3 & E3 & Hf3 & _)|(r & w3 & _ & E3 & Hf3 & _)]
  end; rewrite E3; simpl in Hf, Hf3; [congruence|].
  rewrite (bind_run _ _ _ _ _ (print_run _ _)).
  rewrite (bind_run _ _ _ _ _ (print_run _ _)).
  unfold written_table.
  destruct output_path as [out|]; [destruct (truthy (Some out))|].
  - unfold bind, write_file, print, ret.
    destruct (text_eqb ext (lit "csv")); simpl; congruence.
  - unfold bind, ret. simpl. rewrite app_nil_r. congruence.
  - unfold bind, ret. simpl. rewrite app_nil_r. congruence.
Qed.

(** The files after the document path. *)
Lemma anonymize_pdf_files (input_path : text) (output_path : option text)
  (w : world process) :
  match anonymize_pdf input_path output_path w with
  | (Raise _, w') => files w' = files w
  | (Ret (Frame _), _) => False
  | (Ret (Text v), w') =>
      exists t,
        v = VStr t
        /\ files w'
           = files w ++ match output_path with
                        | Some out =>
                            if truthy output_path
                            then [(replace (lit ".pdf") (lit "_anonymized.txt") out,
                                   TextFile t)]
                            else []
                        | None => []
                        end
  end.
Proof.
  unfold anonymize_pdf. unfold bind at 1. unfold lift.
  destruct (pdf_pages input_path) as [pages|e]; [|reflexivity].
  cbv zeta.
  rewrite (bind_run _ _ _ _ _ (print_run _ _)).
  rewrite (bind_run _ _ _ _ _ (print_run _ _)).
  rewrite (bind_run _ _ _ _ _ (print_run _ _)).
  match goal with
  | |- context [bind (_anonymize_text ?v) _ ?w1] =>
      destruct (anonymize_text_run v w1) as [calls E];
      destruct (redacted_str (proc w1) (extract_all_text pages)) as [t Et]
  end.
  rewrite (bind_run _ _ _ _ _ E). rewrite Et.
  destruct output_path as [out|]; [destruct (truthy (Some out))|].
  - unfold bind, write_file, print, ret. simpl. now exists t.
  - unfold bind, ret. simpl. exists t. now rewrite app_nil_r.
  - unfold bind, ret. simpl. exists t. now rewrite app_nil_r.
Qed.

(** The files after any run of [anonymize_file]. *)
Lemma anonymize_file_files (input_path : text) (output_path : option text)
  (w : world process) :
  match anonymize_file input_path output_path w with
  | (Raise _, w') => files w' = files w
  | (Ret (Frame df'), w') =>
      files w'
      = files w ++ match output_path with
                   | Some out => if truthy output_path
                                 then [(out, written_table (extension input_path) df')]
                                 else []
                   | None => []
                   end
  | (Ret (Text v), w') =>
      exists t,
        v = VStr t
        /\ files w'
           = files w ++ match output_path with
                        | Some out =>
                            if truthy output_path
                            then [(replace (lit ".pdf") (lit "_anonymized.txt") out,
                                   TextFile t)]
                            else []
                        | None => []
                        end
  end.
Proof.
  unfold anonymize_file.
  rewrite (bind_run _ _ _ _ _ (print_run _ _)). cbv zeta.
  set (w1 := extend w [ReadingFrom input_path] []).
  assert (Hw1 : files w1 = files w) by reflexivity.
  rewrite <- Hw1.
  destruct (text_eqb (extension input_path) (lit "csv")) eqn:Ecsv.
  - unfold bind at 1. unfold lift.
    destruct (read_csv input_path) as [df|e]; [|reflexivity].
    pose proof (anonymize_table_files (extension input_path) df output_path w1) as H.
    destruct (anonymize_table _ _ _ _) as [[[df'|v]|e] w']; [exact H|contradiction|exact H].
  - destruct (text_eqb (extension input_path) (lit "xls")
              || text_eqb (extension input_path) (lit "xlsx")).
    + unfold bind at 1. unfold lift.
      destruct (read_excel input_path) as [df|e]; [|reflexivity].
      pose proof (anonymize_table_files (extension input_path) df output_path w1) as H.
      destruct (anonymize_table _ _ _ _) as [[[df'|v]|e] w']; [exact H|contradiction|exact H].
    + destruct (text_eqb (extension input_path) (lit "pdf")).
      * pose proof (anonymize_pdf_files input_path output_path w1) as H.
        destruct (anonymize_pdf _ _ _) as [[[df'|v]|e] w']; [contradiction|exact H|exact H].
      * reflexivity.
Qed.

(** X10: A run that returns a table has written exactly that table to the
    output path, with [to_csv] when the input's extension is csv and with
    [to_excel] otherwise: the format follows the input path, not the output
    path.  With no output path, or an empty one, it has written nothing. *)
Theorem table_written_is_table_returned (input_path : text)
  (output_path : option text) (w w' : world process) (df' : DataFrame) :
  anonymize_file input_path output_path w = (Ret (Frame df'), w') ->
  (forall out, output_path = Some out -> out <> [] ->
     files w'
     = files w ++ [(out, if text_eqb (extension input_path) (lit "csv")
                         then CsvFile df' else ExcelFile df')])
  /\ (truthy output_path = false -> files w' = files w).
Proof.
  intros H. pose proof (anonymize_file_files input_path output_path w) as F.
  rewrite H in F. split.
  - intros out -> Hne. destruct out as [|c out]; [contradiction|]. exact F.
  - intros Ht. rewrite F. destruct output_path as [out|];
      [rewrite Ht|]; apply app_nil_r.
Qed.

(** X11: A run that returns a text returns a string and has written exactly
    that string to the output path with [.pdf] replaced by
    [_anonymized.txt]; with no output path, or an empty one, it has written
    nothing. *)
Theorem text_written_is_text_returned (input_path : text)
  (output_path : option text) (w w' : world process) (v : value) :
  anonymize_file input_path output_path w = (Ret (Text v), w') ->
  exists t,
    v = VStr t
    /\ (forall out, output_path = Some out -> out <> [] ->
          files w'
          = files w ++ [(replace (lit ".pdf") (lit "_anonymized.txt") out,
                         TextFile t)])
    /\ (truthy output_path = false -> files w' = files w).
Proof.
  intros H. pose proof (anonymize_file_files input_path output_path w) as F.
  rewrite H in F. destruct F as (t & -> & F). exists t.
  split; [reflexivity|]. split.
  - intros out -> Hne. destruct out as [|c out]; [contradiction|]. exact F.
  - intros Ht. rewrite F. destruct output_path as [out|];
      [rewrite Ht|]; apply app_nil_r.
Qed.

(** ** The document path *)

(** C9: on a document, the text the file orchestrator previews and hands
    to the text redaction is the extraction of the pages: the page texts in
    page order with a newline between consecutive pages, a page without
    extractable text counting as the empty string.  Whatever the pages are,
    the run returns; a document of two pages one of which is empty gives the
    text of the other page and the separating newline. *)
Theorem extraction_joins_pages (input_path : text) (output_path : option text)
  (w : world process) (pages : list (option text)) :
  extension input_path = lit "pdf" ->
  pdf_pages input_path = Ret pages ->
  (exists w',
     anonymize_file input_path output_path w
     = (Ret (Text (redacted (proc w) (VStr (extract_all_text pages)))), w')
     /\ console w'
        = console w
          ++ [ReadingFrom input_path; ExtractedTextPreview;
              Preview (firstn 500 (extract_all_text pages));
              RunningAnonymization]
          ++ match output_path with
             | Some out =>
                 if truthy output_path
                 then [SavedTo (replace (lit ".pdf") (lit "_anonymized.txt") out)]
                 else []
             | None => []
             end)
  /\ extract_all_text [] = []
  /\ (forall p, extract_all_text [p] = or_empty p)
  /\ (forall p q rest,
        extract_all_text (p :: q :: rest)
        = or_empty p ++ lit (String "010"%char EmptyString)
          ++ extract_all_text (q :: rest))
  /\ or_empty None = [] /\ or_empty (Some []) = []
  /\ (forall t, or_empty (Some t) = t)
  /\ (forall t, extract_all_text [Some t; None]
                = t ++ lit (String "010"%char EmptyString))
  /\ (forall t, extract_all_text [Some t; Some []]
                = t ++ lit (String "010"%char EmptyString))
  /\ (forall t, extract_all_text [None; Some t]
                = lit (String "010"%char EmptyString) ++ t)
  /\ (forall t, extract_all_text [Some []; Some t]
                = lit (String "010"%char EmptyString) ++ t).
Proof.
  intros Hext Hpages. split.
  - rewrite (anonymize_file_document _ _ _ Hext). unfold anonymize_pdf.
    unfold bind at 1, lift. rewrite Hpages. cbv zeta.
    rewrite (bind_run _ _ _ _ _ (print_run _ _)).
    rewrite (bind_run _ _ _ _ _ (print_run _ _)).
    rewrite (bind_run _ _ _ _ _ (print_run _ _)).
    match goal with
    | |- context [bind (_anonymize_text ?v) _ ?w1] =>
        destruct (anonymize_text_run v w1) as [calls E];
        destruct (redacted_str (proc w) (extract_all_text pages)) as [t Et];
        change (proc w1) with (proc w) in E
    end.
    rewrite (bind_run _ _ _ _ _ E). rewrite Et.
    destruct output_path as [out|]; [destruct (truthy (Some out))|];
      unfold bind, write_file, print, ret, extend; simpl;
      eexists; (split; [reflexivity|]); simpl;
      rewrite ?app_nil_r, <- ?app_assoc; reflexivity.
  - assert (Hor : forall t, or_empty (Some t) = t) by (now intros [|c t]).
    repeat split; try reflexivity; try exact Hor;
      intros [|c t]; reflexivity.
Qed.

(** ** Tables with and without an Aadhaar column *)

(** X12: A loaded table without a column labelled exactly [Aadhaar] is not
    normalised: what the file orchestrator returns is the tabular
    anonymization of the table as loaded, so an identifier column under any
    other label, or a numeric one, passes as [anonymize_dataframe] leaves
    it. *)
Theorem no_aadhaar_column_no_normalisation (input_path : text)
  (output_path : option text) (w : world process) (df : DataFrame) :
  (extension input_path = lit "csv" /\ read_csv input_path = Ret df)
  \/ ((extension input_path = lit "xls" \/ extension input_path = lit "xlsx")
      /\ read_excel input_path = Ret df) ->
  NoDup (labels df) ->
  ~ In Aadhaar (labels df) ->
  exists w',
    anonymize_file input_path output_path w
    = (Ret (Frame {| nrows := nrows df;
                     columns := map (redact_column (proc w)) (columns df) |}),
       w').
Proof.
  intros Hload Hnd Hno.
  assert (Hn : forall w0, normalize_aadhaar df w0 = (Ret df, w0)).
  { intros w0. now apply normalize_aadhaar_absent. }
  destruct Hload as [[Hext Hr]|[Hext Hr]].
  - rewrite (anonymize_file_csv _ _ _ Hext). unfold bind at 1. unfold lift.
    rewrite Hr.
    destruct (anonymize_table_run (lit "csv") df df output_path
                (extend w [ReadingFrom input_path] []) Hn Hnd) as [w' E].
    exists w'. exact E.
  - rewrite (anonymize_file_excel _ _ _ Hext). unfold bind at 1. unfold lift.
    rewrite Hr.
    destruct (anonymize_table_run (extension input_path) df df output_path
                (extend w [ReadingFrom input_path] []) Hn Hnd) as [w' E].
    exists w'. exact E.
Qed.

(** ** [hash_pii] *)

Lemma encode_without_surrogate (s : text) :
  existsb is_surrogate s = false -> exists bytes, encode s = Ret bytes.
Proof.
  induction s as [|c s IH]; simpl; [now eexists|].
  intros H. apply orb_false_iff in H as [Hc Hs].
  rewrite Hc. destruct (IH Hs) as [bs E]. rewrite E. now eexists.
Qed.

Lemma encode_with_surrogate (s : text) :
  existsb is_surrogate s = true ->
  encode s = Raise (OtherException "UnicodeEncodeError").
Proof.
  induction s as [|c s IH]; simpl; [discriminate|].
  destruct (is_surrogate c); [reflexivity|]. simpl. intros H.
  now rewrite (IH H).
Qed.

Lemma hex_digit_lower (x : Z) : is_lower_hex (hex_digit (Z.land x 15)) = true.
Proof.
  assert (H : (0 <= Z.land x 15 < 16)%Z).
  { change 15%Z with (Z.ones 4). rewrite Z.land_ones by lia.
    apply Z.mod_pos_bound. reflexivity. }
  remember (Z.to_nat (Z.land x 15)) as k eqn:Ek.
  assert (Hd : Z.land x 15 = Z.of_nat k) by lia.
  assert (Hk : k < 16) by lia.
  rewrite Hd. clear -Hk.
  do 16 (destruct k as [|k]; [reflexivity|]). lia.
Qed.

Lemma hex_word_shape (x : Z) :
  List.length (hex_word x) = 8 /\ forallb is_lower_hex (hex_word x) = true.
Proof.
  unfold hex_word. split; [reflexivity|].
  apply forallb_forall. intros c Hc.
  apply in_map_iff in Hc as (i & <- & _). apply hex_digit_lower.
Qed.

Lemma hexdigest_shape (r : registers) :
  List.length (hexdigest r) = 64 /\ forallb is_lower_hex (hexdigest r) = true.
Proof.
  destruct r as [[[[[[[a b] c] d] e] f] g] h]. unfold hexdigest. split.
  - rewrite !length_app.
    now rewrite !(proj1 (hex_word_shape _)).
  - rewrite !forallb_app.
    now rewrite !(proj2 (hex_word_shape _)).
Qed.

Lemma forallb_firstn (f : N -> bool) (n : nat) (s : text) :
  forallb f s = true -> forallb f (firstn n s) = true.
Proof.
  revert n; induction s as [|c s IH]; intros [|n]; simpl; try reflexivity.
  intros H. apply andb_true_iff in H as [Hc Hs]. now rewrite Hc, IH.
Qed.

Lemma hash_pii_token_of (s : text) :
  existsb is_surrogate s = false -> exists h, hash_pii (VStr s) = Ret h.
Proof.
  intros Hn. destruct (encode_without_surrogate s Hn) as [bytes E].
  unfold hash_pii. change (py_str (VStr s)) with (Ret s).
  cbv beta iota. rewrite E. now eexists.
Qed.

(** X14: For every value whose string form holds no surrogate, [hash_pii]
    returns a token of exactly 16 characters, all of them lower-case
    hexadecimal digits, and it is the token of the string form: a number
    and its decimal string have the same token. *)
Theorem hash_pii_token (v : value) (s : text) :
  py_str v = Ret s ->
  existsb is_surrogate s = false ->
  exists h,
    hash_pii v = Ret h
    /\ List.length h = 16
    /\ forallb is_lower_hex h = true
    /\ hash_pii (VStr s) = Ret h.
Proof.
  intros Hs Hn. destruct (encode_without_surrogate s Hn) as [bytes E].
  unfold hash_pii. rewrite Hs. change (py_str (VStr s)) with (Ret s).
  cbv beta iota. rewrite E.
  destruct (hexdigest_shape (sha256 (map Z.of_N bytes))) as [Hl Hh].
  eexists. split; [reflexivity|]. split; [|split; [|reflexivity]].
  - rewrite length_firstn, Hl. reflexivity.
  - now apply forallb_firstn.
Qed.

(** X15: [hash_pii] has no handler: when the coercion of its argument to a
    string raises, or when the string form holds a surrogate and cannot be
    encoded, the exception leaves [hash_pii]; it returns exactly when
    neither happens. *)
Theorem hash_pii_failures (v : value) :
  (forall e, py_str v = Raise e -> hash_pii v = Raise e)
  /\ (forall s, py_str v = Ret s -> existsb is_surrogate s = true ->
        hash_pii v = Raise (OtherException "UnicodeEncodeError"))
  /\ ((exists h, hash_pii v = Ret h)
      <-> exists s, py_str v = Ret s /\ existsb is_surrogate s = false).
Proof.
  split; [|split].
  - intros e H. unfold hash_pii. now rewrite H.
  - intros s Hs H. unfold hash_pii. now rewrite Hs, (encode_with_surrogate s H).
  - split.
    + intros [h H]. unfold hash_pii in H.
      destruct (py_str v) as [s|e]; [|discriminate].
      exists s. split; [reflexivity|].
      destruct (existsb is_surrogate s) eqn:Es; [|reflexivity].
      rewrite (encode_with_surrogate s Es) in H. discriminate.
    + intros (s & Hs & Hn).
      destruct (hash_pii_token_of s Hn) as [h Hh]. exists h.
      unfold hash_pii in *. rewrite Hs.
      change (py_str (VStr s)) with (Ret s) in Hh. exact Hh.
Qed.

(** ** The patterns of the custom recognizers *)

Lemma decimal_is_word (c : N) : is_decimal c = true -> is_word c = true.
Proof.
  unfold is_decimal, is_word. destruct (is_ascii c).
  - intros H. now rewrite H.
  - intros H. now rewrite H.
Qed.

Lemma dash_is_no_digit : is_decimal 45 = false.
Proof. reflexivity. Qed.

Lemma ends_Cat (a b : regex) (p q : position) :
  In q (ends (Cat a b) p) <-> exists m, In m (ends a p) /\ In q (ends b m).
Proof. simpl. apply in_flat_map. Qed.

Lemma ends_Lit (c : N) (prev : option N) (s : text) :
  ends (Lit c) (prev, c :: s) = [(Some c, s)].
Proof. simpl. unfold one_char. simpl. now rewrite N.eqb_refl. Qed.

Lemma ends_Lit_inv (c : N) (p q : position) :
  In q (ends (Lit c) p) -> snd p = c :: snd q.
Proof.
  destruct p as [prev [|x s]]; simpl; unfold one_char; simpl; [contradiction|].
  destruct (N.eqb_spec c x) as [->|_]; [|contradiction].
  intros [<-|[]]. reflexivity.
Qed.

Lemma ends_WordBoundary_inv (p q : position) :
  In q (ends WordBoundary p) ->
  q = p /\ xorb (word_before p) (word_after p) = true.
Proof.
  simpl. destruct (xorb (word_before p) (word_after p)); [|contradiction].
  intros [<-|[]]. now split.
Qed.

(** The character before the position reached after [ds]. *)
Lemma iterate_digits (ds rest : text) (prev : option N) (lo hi : nat) :
  forallb is_decimal ds = true ->
  lo <= List.length ds <= hi ->
  In (fold_left (fun _ c => Some c) ds prev, rest)
     (iterate (ends Digit) lo hi (prev, ds ++ rest)).
Proof.
  revert prev lo hi; induction ds as [|c ds IH]; intros prev lo hi Hd Hlen.
  - simpl in Hlen. assert (lo = 0) by lia. subst lo.
    destruct hi; simpl; now left.
  - simpl in Hd, Hlen. apply andb_true_iff in Hd as [Hc Hd].
    destruct hi as [|h]; [lia|]. simpl iterate.
    apply in_or_app. right. unfold one_char. simpl. rewrite Hc. simpl.
    rewrite app_nil_r. apply IH; [exact Hd|lia].
Qed.

Lemma iterate_digits_inv (hi lo : nat) (prev : option N) (s : text)
  (q : position) :
  In q (iterate (ends Digit) lo hi (prev, s)) ->
  exists ds,
    s = ds ++ snd q /\ forallb is_decimal ds = true
    /\ lo <= List.length ds <= hi
    /\ fst q = fold_left (fun _ c => Some c) ds prev.
Proof.
  revert lo prev s; induction hi as [|h IH]; intros lo prev s H; simpl in H.
  - destruct lo; [|contradiction]. destruct H as [<-|[]].
    exists []. simpl. repeat split; lia.
  - apply in_app_or in H as [H|H].
    + destruct lo; [|contradiction]. destruct H as [<-|[]].
      exists []. simpl. repeat split; lia.
    + apply in_flat_map in H as (m & Hm & Hq).
      destruct s as [|c s]; [contradiction|].
      unfold one_char in Hm. simpl in Hm.
      destruct (is_decimal c) eqn:Hc; [|contradiction].
      destruct Hm as [<-|[]].
      destruct (IH _ _ _ Hq) as (ds & E & Hd & Hlen & Hf).
      exists (c :: ds). simpl. rewrite Hc, Hd, <- E. repeat split; try lia.
      exact Hf.
Qed.

Lemma last_digit (ds : text) (prev : option N) :
  ds <> [] -> forallb is_decimal ds = true ->
  exists c, fold_left (fun _ c => Some c) ds prev = Some c
            /\ is_decimal c = true.
Proof.
  revert prev; induction ds as [|c ds IH]; intros prev Hne Hd; [contradiction|].
  simpl in *. apply andb_true_iff in Hd as [Hc Hd].
  destruct ds as [|c' ds']; [now exists c|].
  apply IH; [discriminate|exact Hd].
Qed.

(** A pattern [\b\d{lo,hi}\b] with [1 <= lo] matches the whole of a text
    exactly when the text is between [lo] and [hi] decimal digits. *)
Lemma digit_run_fullmatch (lo hi : nat) (s : text) :
  1 <= lo ->
  fullmatch (Cat WordBoundary (Cat (digits lo hi) WordBoundary)) s = true
  <-> forallb is_decimal s = true /\ lo <= List.length s <= hi.
Proof.
  intros Hlo. unfold fullmatch. rewrite existsb_exists. split.
  - intros (q & Hq & Hend).
    apply ends_Cat in Hq as (m & Hm & Hq).
    apply ends_WordBoundary_inv in Hm as [-> _].
    apply ends_Cat in Hq as (m & Hm & Hq).
    apply ends_WordBoundary_inv in Hq as [-> _].
    destruct (iterate_digits_inv _ _ _ _ _ Hm) as (ds & E & Hd & Hlen & _).
    destruct m as [pm [|x rest]]; simpl in *; [|discriminate].
    rewrite app_nil_r in E. now subst.
  - intros [Hd Hlen].
    destruct s as [|c s]; [simpl in Hlen; lia|].
    assert (Hne : c :: s <> []) by discriminate.
    destruct (last_digit (c :: s) None Hne Hd) as (z & Ez & Hz).
    exists (Some z, []). split; [|reflexivity].
    apply ends_Cat. exists (None, c :: s). split.
    + simpl. unfold word_before, word_after. simpl.
      simpl in Hd. apply andb_true_iff in Hd as [Hc _].
      rewrite (decimal_is_word c Hc). now left.
    + apply ends_Cat. exists (Some z, []). split.
      * rewrite <- Ez. rewrite <- (app_nil_r (c :: s)) at 2.
        now apply iterate_digits.
      * simpl. unfold word_before, word_after. simpl.
        rewrite (decimal_is_word z Hz). now left.
Qed.

Lemma phone_pattern_digits_only (s : text) :
  (fullmatch (pattern local_phone_recognizer) s = true
   <-> forallb is_decimal s = true /\ List.length s = 10)
  /\ (fullmatch (pattern bank_recognizer) s = true
      <-> forallb is_decimal s = true /\ 9 <= List.length s <= 18).
Proof.
  split.
  - simpl pattern. rewrite (digit_run_fullmatch 10 10 s) by lia.
    split; intros [H1 H2]; split; try assumption; lia.
  - simpl pattern. apply (digit_run_fullmatch 9 18 s). lia.
Qed.

(** X16: Every text the local phone pattern matches in full, the bank account
    pattern matches too: the first matches exactly the runs of 10 decimal
    digits, the second exactly the runs of 9 to 18; and the phone rule has
    the higher score. *)
Theorem phone_pattern_within_bank_pattern (s : text) :
  (fullmatch (pattern local_phone_recognizer) s = true
   <-> forallb is_decimal s = true /\ List.length s = 10)
  /\ (fullmatch (pattern bank_recognizer) s = true
      <-> forallb is_decimal s = true /\ 9 <= List.length s <= 18)
  /\ (fullmatch (pattern local_phone_recognizer) s = true ->
      fullmatch (pattern bank_recognizer) s = true)
  /\ QArith_base.Qlt (score bank_recognizer) (score local_phone_recognizer).
Proof.
  destruct (phone_pattern_digits_only s) as [Hp Hb].
  split; [exact Hp|]. split; [exact Hb|]. split; [|reflexivity].
  intros H. apply Hb. apply Hp in H as [H1 H2]. split; [exact H1|lia].
Qed.

Lemma aadhaar_pattern_dash (s : text) :
  fullmatch (pattern aadhar_recognizer) s = true -> In 45%N s.
Proof.
  unfold fullmatch. rewrite existsb_exists. intros (q & Hq & _).
  simpl pattern in Hq.
  apply ends_Cat in Hq as (m & Hm & Hq).
  apply ends_WordBoundary_inv in Hm as [-> _].
  apply ends_Cat in Hq as (m & Hm & Hq).
  destruct (iterate_digits_inv _ _ _ _ _ Hm) as (ds & E & _).
  apply ends_Cat in Hq as (m' & Hm' & _).
  apply ends_Lit_inv in Hm'. rewrite Hm' in E. rewrite E.
  apply in_or_app. right. now left.
Qed.

Lemma digits_hold_no_dash (d : text) :
  forallb is_decimal d = true -> ~ In 45%N d.
Proof.
  intros H Hin. rewrite forallb_forall in H.
  specialize (H _ Hin). rewrite dash_is_no_digit in H. discriminate.
Qed.

Lemma aadhaar_pattern_canonical (a b c : text) :
  forallb is_decimal a = true -> forallb is_decimal b = true ->
  forallb is_decimal c = true ->
  List.length a = 4 -> List.length b = 4 -> List.length c = 4 ->
  fullmatch (pattern aadhar_recognizer) (a ++ lit "-" ++ b ++ lit "-" ++ c) = true.
Proof.
  intros Ha Hb Hc La Lb Lc.
  assert (Na : a <> []) by (intros ->; discriminate).
  assert (Nc : c <> []) by (intros ->; discriminate).
  destruct (last_digit c (Some 45%N) Nc Hc) as (z & Ez & Hz).
  unfold fullmatch. rewrite existsb_exists.
  exists (Some z, []). split; [|reflexivity]. simpl pattern.
  apply ends_Cat. exists (None, a ++ lit "-" ++ b ++ lit "-" ++ c). split.
  { destruct a as [|x a]; [contradiction|]. simpl.
    unfold word_before, word_after. simpl.
    simpl in Ha. apply andb_true_iff in Ha as [Hx _].
    rewrite (decimal_is_word x Hx). now left. }
  apply ends_Cat. eexists. split.
  { apply (iterate_digits a _ None 4 4 Ha). lia. }
  apply ends_Cat. eexists. split.
  { change (lit "-" ++ b ++ lit "-" ++ c) with (45%N :: b ++ lit "-" ++ c).
    rewrite ends_Lit. now left. }
  apply ends_Cat. eexists. split.
  { apply (iterate_digits b _ (Some 45%N) 4 4 Hb). lia. }
  apply ends_Cat. eexists. split.
  { change (lit "-" ++ c) with (45%N :: c).
    rewrite ends_Lit. now left. }
  apply ends_Cat. exists (Some z, []). split.
  { rewrite <- Ez. rewrite <- (app_nil_r c) at 2.
    apply (iterate_digits c [] (Some 45%N) 4 4 Hc). lia. }
  simpl. unfold word_before, word_after. simpl.
  rewrite (decimal_is_word z Hz). now left.
Qed.

(** X17: A value of the Aadhaar column with exactly 12 digits comes out of the
    normalisation in a form the Aadhaar pattern matches in full and that
    neither the bank account pattern nor the phone pattern matches; its 12
    digits without the dashes are matched by the bank account pattern and
    not by the Aadhaar pattern. *)
Theorem normalised_aadhaar_matches_pattern (x : text) :
  List.length (strip_non_digits x) = 12 ->
  fullmatch (pattern aadhar_recognizer) (aadhaar_format (strip_non_digits x)) = true
  /\ fullmatch (pattern bank_recognizer) (aadhaar_format (strip_non_digits x)) = false
  /\ fullmatch (pattern local_phone_recognizer) (aadhaar_format (strip_non_digits x)) = false
  /\ fullmatch (pattern aadhar_recognizer) (strip_non_digits x) = false
  /\ fullmatch (pattern bank_recognizer) (strip_non_digits x) = true.
Proof.
  intros H12. set (d := strip_non_digits x) in *.
  pose proof (strip_non_digits_digits x) as Hd. fold d in Hd.
  destruct (aadhaar_format_twelve d H12) as (Ef & Ed & La & Lb & Lc).
  assert (Hparts : forallb is_decimal (firstn 4 d) = true
                   /\ forallb is_decimal (firstn 4 (skipn 4 d)) = true
                   /\ forallb is_decimal (skipn 8 d) = true).
  { rewrite Ed, !forallb_app in Hd.
    apply andb_true_iff in Hd as [H1 Hd]. apply andb_true_iff in Hd as [H2 H3].
    auto. }
  destruct Hparts as (Ha & Hb & Hc).
  assert (Hdash : In 45%N (aadhaar_format d)).
  { rewrite Ef. apply in_or_app. right. now left. }
  assert (Hnot : forallb is_decimal (aadhaar_format d) = false).
  { destruct (forallb is_decimal (aadhaar_format d)) eqn:E; [|reflexivity].
    exfalso. exact (digits_hold_no_dash _ E Hdash). }
  split; [|split; [|split; [|split]]].
  - rewrite Ef. now apply aadhaar_pattern_canonical.
  - destruct (fullmatch (pattern bank_recognizer) (aadhaar_format d)) eqn:E;
      [|reflexivity].
    apply (proj1 (proj2 (phone_pattern_digits_only (aadhaar_format d)))) in E.
    destruct E as [E _]. congruence.
  - destruct (fullmatch (pattern local_phone_recognizer) (aadhaar_format d)) eqn:E;
      [|reflexivity].
    apply (proj1 (proj1 (phone_pattern_digits_only (aadhaar_format d)))) in E.
    destruct E as [E _]. congruence.
  - destruct (fullmatch (pattern aadhar_recognizer) d) eqn:E; [|reflexivity].
    exfalso. exact (digits_hold_no_dash d Hd (aadhaar_pattern_dash d E)).
  - apply (proj2 (proj2 (phone_pattern_digits_only d))).
    split; [exact Hd|lia].
Qed.

Lemma iterate_round (f : position -> list position) (lo hi : nat)
  (p m q : position) :
  In m (f p) -> In q (iterate f lo hi m) -> In q (iterate f (S lo) (S hi) p).
Proof.
  intros Hm Hq. simpl. rewrite Nat.sub_0_r.
  apply in_flat_map. now exists m.
Qed.

Lemma ends_group (g : text) (prev : option N) (rest : text) :
  forallb is_decimal g = true -> 1 <= List.length g <= 3 ->
  In (Some 46%N, rest)
     (ends (Cat (digits 1 3) (Lit 46)) (prev, g ++ 46%N :: rest)).
Proof.
  intros Hg Hl. apply ends_Cat. eexists. split.
  - apply (iterate_digits g _ prev 1 3 Hg Hl).
  - rewrite ends_Lit. now left.
Qed.

(** X18: The IP pattern matches every text made of four groups of one to three
    decimal digits with dots between them; it puts no bound on the value of
    a group. *)
Theorem ip_pattern_any_groups (a b c d : text) :
  forallb is_decimal a = true -> forallb is_decimal b = true ->
  forallb is_decimal c = true -> forallb is_decimal d = true ->
  1 <= List.length a <= 3 -> 1 <= List.length b <= 3 ->
  1 <= List.length c <= 3 -> 1 <= List.length d <= 3 ->
  fullmatch (pattern ip_recognizer)
            (a ++ lit "." ++ b ++ lit "." ++ c ++ lit "." ++ d) = true.
Proof.
  intros Ha Hb Hc Hd La Lb Lc Ld.
  assert (Na : a <> []) by (intros ->; simpl in La; lia).
  assert (Nd : d <> []) by (intros ->; simpl in Ld; lia).
  destruct (last_digit d (Some 46%N) Nd Hd) as (z & Ez & Hz).
  unfold fullmatch. rewrite existsb_exists.
  exists (Some z, []). split; [|reflexivity]. simpl pattern.
  change (lit ".") with [46%N]. simpl app.
  apply ends_Cat. exists (None, a ++ 46%N :: b ++ 46%N :: c ++ 46%N :: d). split.
  { destruct a as [|x a]; [contradiction|]. simpl.
    unfold word_before, word_after. simpl.
    simpl in Ha. apply andb_true_iff in Ha as [Hx _].
    rewrite (decimal_is_word x Hx). now left. }
  apply ends_Cat. exists (Some 46%N, d). split.
  { eapply iterate_round; [apply (ends_group a None _ Ha La)|].
    eapply iterate_round; [apply (ends_group b _ _ Hb Lb)|].
    eapply iterate_round; [apply (ends_group c _ _ Hc Lc)|].
    now left. }
  apply ends_Cat. exists (Some z, []). split.
  { rewrite <- Ez. rewrite <- (app_nil_r d) at 2.
    apply (iterate_digits d [] (Some 46%N) 1 3 Hd Ld). }
  simpl. unfold word_before, word_after. simpl.
  rewrite (decimal_is_word z Hz). now left.
Qed.

(** ** A document without text *)

Lemma join_newlines_whitespace (parts : list text) :
  Forall (fun t => t = []) parts ->
  forallb isspace (join (lit (String "010"%char EmptyString)) parts) = true.
Proof.
  induction 1 as [|t parts Ht _ IH]; [reflexivity|]. subst t.
  destruct parts as [|t' parts]; [reflexivity|].
  change (join (lit (String "010"%char EmptyString)) ([] :: t' :: parts))
    with (lit (String "010"%char EmptyString)
          ++ join (lit (String "010"%char EmptyString)) (t' :: parts)).
  rewrite forallb_app, IH. reflexivity.
Qed.

(** X19: A document none of whose pages yields text comes back as the empty
    string: the extraction is a run of newlines, which the text redaction
    strips to nothing, and no engine is called. *)
Theorem document_without_text (input_path : text) (output_path : option text)
  (w : world process) (pages : list (option text)) :
  extension input_path = lit "pdf" ->
  pdf_pages input_path = Ret pages ->
  Forall (fun page => or_empty page = []) pages ->
  exists w',
    anonymize_file input_path output_path w = (Ret (Text (VStr [])), w')
    /\ engine_log w' = engine_log w.
Proof.
  intros Hext Hpages Hall.
  assert (Hws : forallb isspace (extract_all_text pages) = true).
  { unfold extract_all_text. apply join_newlines_whitespace.
    clear Hpages. induction Hall as [|page pages Hp _ IH]; simpl;
      constructor; assumption. }
  rewrite (anonymize_file_document _ _ _ Hext). unfold anonymize_pdf.
  unfold bind at 1. unfold lift. rewrite Hpages. cbv zeta.
  rewrite (bind_run _ _ _ _ _ (print_run _ _)).
  rewrite (bind_run _ _ _ _ _ (print_run _ _)).
  rewrite (bind_run _ _ _ _ _ (print_run _ _)).
  assert (E : forall w0, _anonymize_text (VStr (extract_all_text pages)) w0
                         = (Ret (VStr []), w0)).
  { intros w0. unfold _anonymize_text.
    change (py_str (VStr (extract_all_text pages)))
      with (Ret (extract_all_text pages)).
    cbv beta iota zeta. now rewrite (strip_whitespace _ Hws). }
  rewrite (bind_run _ _ _ _ _ (E _)).
  destruct output_path as [out|]; [destruct (truthy (Some out))|];
    unfold bind, write_file, print, ret; simpl;
    eexists; split; try reflexivity; simpl; now rewrite ?app_nil_r.
Qed.

(** The digest of the model on the two-block message of the standard's
    test vectors. *)
Lemma sha256_two_block_vector :
  hexdigest (sha256 (map Z.of_N
    (lit "abcdbcdecdefdefgefghfghighijhijkijkljklmklmnlmnomnopnopq")))
  = lit "248d6a61d20638b8e5c026930c3e6039a33ce45964ff2167f6ecedd419db06c1".
Proof. vm_compute. reflexivity. Qed.

Lemma sha256_empty_vector :
  hexdigest (sha256 [])
  = lit "e3b0c44298fc1c149afbf4c8996fb92427ae41e4649b934ca495991b7852b855".
Proof. vm_compute. reflexivity. Qed.

End Anonymizer.

(** * The properties on sample runs *)

(** On a single space the text redaction returns the empty string, not
    the space. *)
Lemma whitespace_only_is_not_unchanged :
  forallb isspace (lit " ") = true
  /\ fst (_anonymize_text no_detection tagged_digest (VStr (lit " ")) initial_world)
     = Ret (VStr [])
  /\ fst (_anonymize_text no_detection tagged_digest (VStr (lit " ")) initial_world)
     <> Ret (VStr (lit " ")).
Proof.
  split; [reflexivity|]. split; [reflexivity|]. vm_compute. discriminate.
Qed.

Lemma whitespace_only_returns_empty_witness :
  forallb isspace [32; 9; 10; 160]%N = true
  /\ _anonymize_text no_detection tagged_digest (VStr [32; 9; 10; 160]%N) initial_world
     = (Ret (VStr []), initial_world).
Proof.
  split; [reflexivity|].
  apply (whitespace_only_returns_empty nat no_detection tagged_digest
           [32; 9; 10; 160]%N initial_world).
  reflexivity.
Defined.

(** With no detection result, a text that starts with a space comes back
    without it. *)
Lemma no_results_is_not_unchanged :
  no_detection (proc initial_world) (lit " a") "en" ENTITIES = []
  /\ no_detection (proc initial_world) (strip (lit " a")) "en" ENTITIES = []
  /\ fst (_anonymize_text no_detection tagged_digest (VStr (lit " a")) initial_world)
     = Ret (VStr (lit "a"))
  /\ fst (_anonymize_text no_detection tagged_digest (VStr (lit " a")) initial_world)
     <> Ret (VStr (lit " a")).
Proof.
  repeat split. vm_compute. discriminate.
Qed.

Lemma no_results_returns_stripped_witness :
  py_str (VStr (lit " a ")) = Ret (lit " a ")
  /\ no_detection (proc initial_world) (strip (lit " a ")) "en" ENTITIES = []
  /\ exists calls,
       _anonymize_text no_detection tagged_digest (VStr (lit " a ")) initial_world
       = (Ret (VStr (lit "a")), extend initial_world [] calls).
Proof.
  split; [reflexivity|]. split; [reflexivity|].
  apply (no_results_returns_stripped nat no_detection tagged_digest
           (VStr (lit " a ")) (lit " a ") initial_world); reflexivity.
Defined.

Lemma coercion_failure_passes_through_witness :
  py_str (VObj 7 (Raise (OtherException "UnicodeEncodeError")))
  = Raise (OtherException "UnicodeEncodeError")
  /\ _anonymize_text (whole_text_detection "PERSON") tagged_digest
       (VObj 7 (Raise (OtherException "UnicodeEncodeError"))) initial_world
     = (Ret (VObj 7 (Raise (OtherException "UnicodeEncodeError"))), initial_world).
Proof.
  split; [reflexivity|].
  apply (coercion_failure_passes_through nat (whole_text_detection "PERSON")
           tagged_digest _ (OtherException "UnicodeEncodeError") initial_world).
  reflexivity.
Defined.

Lemma default_operator_redacts_witness :
  py_str (VStr (lit " id 42, Asha ")) = Ret (lit " id 42, Asha ")
  /\ name_and_number 0 (strip (lit " id 42, Asha ")) "en" ENTITIES
     = [{| entity_type := "PERSON"; start := 7; end_ := 11 |};
        {| entity_type := "NRP"; start := 3; end_ := 5 |}]
  /\ nonoverlapping (List.length (strip (lit " id 42, Asha ")))
       [{| entity_type := "PERSON"; start := 7; end_ := 11 |};
        {| entity_type := "NRP"; start := 3; end_ := 5 |}]
  /\ dict_get "NRP" OPERATORS = None
  /\ _anonymize_text name_and_number tagged_digest
       (VStr (lit " id 42, Asha ")) initial_world
     = (Ret (VStr (lit "id [REDACTED], xyz123:Asha")),
        extend initial_world []
          [Analyze (lit "id 42, Asha") "en" ENTITIES;
           Anonymize (lit "id 42, Asha")
             [{| entity_type := "PERSON"; start := 7; end_ := 11 |};
              {| entity_type := "NRP"; start := 3; end_ := 5 |}]
             OPERATORS]).
Proof.
  assert (Hn : nonoverlapping (List.length (strip (lit " id 42, Asha ")))
                 [{| entity_type := "PERSON"; start := 7; end_ := 11 |};
                  {| entity_type := "NRP"; start := 3; end_ := 5 |}]).
  { simpl. split; [lia|]. split; [lia|]. split.
    - constructor; [right; simpl; lia|constructor].
    - split; [lia|]. split; [lia|]. split; [constructor|exact I]. }
  split; [reflexivity|]. split; [reflexivity|]. split; [exact Hn|].
  split; [reflexivity|].
  exact (proj1 (default_operator_redacts nat name_and_number tagged_digest
                  (VStr (lit " id 42, Asha ")) (lit " id 42, Asha ")
                  initial_world
                  {| entity_type := "PERSON"; start := 7; end_ := 11 |}
                  [{| entity_type := "NRP"; start := 3; end_ := 5 |}]
                  eq_refl eq_refl Hn)).
Defined.

Lemma extraction_joins_pages_witness :
  extension identity_lower (lit "memo.pdf") = lit "pdf"
  /\ page_then_blank (lit "memo.pdf") = Ret [Some (lit "Asha"); None]
  /\ extract_all_text [Some (lit "Asha"); None]
     = lit "Asha" ++ lit (String "010"%char EmptyString)
  /\ exists w',
       anonymize_file (whole_text_detection "PERSON") tagged_digest
         no_unicode_digit identity_lower load_staff load_staff page_then_blank
         (lit "memo.pdf") (Some (lit "memo.pdf")) initial_world
       = (Ret (Text (VStr (lit "xyz123:Asha"))), w')
       /\ console w'
          = [ReadingFrom (lit "memo.pdf"); ExtractedTextPreview;
             Preview (lit "Asha" ++ lit (String "010"%char EmptyString));
             RunningAnonymization; SavedTo (lit "memo_anonymized.txt")].
Proof.
  split; [reflexivity|]. split; [reflexivity|]. split; [reflexivity|].
  exact (proj1 (extraction_joins_pages nat (whole_text_detection "PERSON")
                  tagged_digest no_unicode_digit identity_lower load_staff
                  load_staff page_then_blank
                  (lit "memo.pdf") (Some (lit "memo.pdf")) initial_world
                  [Some (lit "Asha"); None] eq_refl eq_refl)).
Defined.

(** A frame with two columns under one label: [df[col]] is a frame, and
    asking for its [dtype] raises. *)
Lemma repeated_label_raises :
  anonymize_dataframe no_detection tagged_digest twice_id initial_world
  = (Raise (AttributeError "'DataFrame' object has no attribute 'dtype'"),
     initial_world).
Proof. reflexivity. Qed.

Lemma anonymize_dataframe_preserves_shape_witness :
  NoDup (labels people)
  /\ exists df' w',
       anonymize_dataframe (whole_text_detection "PERSON") tagged_digest people initial_world
       = (Ret df', w')
       /\ labels df' = labels people
       /\ nrows df' = nrows people
       /\ files w' = files initial_world
       /\ Forall2 (fun c c' =>
                     List.length (values (snd c')) = List.length (values (snd c))
                     /\ (dtype_of (snd c) <> object -> c' = c))
                  (columns people) (columns df').
Proof.
  assert (H : NoDup (labels people)).
  { repeat constructor; simpl; intuition discriminate. }
  split; [exact H|].
  exact (anonymize_dataframe_preserves_shape nat (whole_text_detection "PERSON")
           tagged_digest people initial_world H).
Defined.

Lemma unsupported_extension_raises_witness :
  ~ In (extension identity_lower (lit "notes.txt"))
       [lit "csv"; lit "xls"; lit "xlsx"; lit "pdf"]
  /\ anonymize_file no_detection tagged_digest no_unicode_digit identity_lower
       load_people load_people no_pages
       (lit "notes.txt") (Some (lit "out.csv")) initial_world
     = (Raise (ValueError "❌ Unsupported file format. Only CSV and Excel are supported."),
        extend initial_world [ReadingFrom (lit "notes.txt")] []).
Proof.
  assert (H : ~ In (extension identity_lower (lit "notes.txt"))
                   [lit "csv"; lit "xls"; lit "xlsx"; lit "pdf"]).
  { vm_compute. intros [H|[H|[H|[H|[]]]]]; discriminate. }
  split; [exact H|].
  exact (proj1 (unsupported_extension_raises nat no_detection tagged_digest
                  no_unicode_digit identity_lower load_people load_people
                  no_pages (lit "notes.txt") (Some (lit "out.csv"))
                  initial_world H)).
Defined.

(** An Aadhaar value with four digits and a dash comes out of the
    normalisation as the four digits: it is not left as it was. *)
Lemma short_aadhaar_is_not_left_as_is :
  List.length (strip_non_digits no_unicode_digit (lit "12-34")) <> 12
  /\ normalize_aadhaar no_unicode_digit cards initial_world
     = (Ret {| nrows := 2;
               columns :=
                 [ (lit "Aadhaar",
                    {| dtype_of := object;
                       values := [VStr (lit "1234-5678-9012");
                                  VStr (lit "1234")] |}) ] |},
        initial_world)
  /\ VStr (lit "1234") <> VStr (lit "12-34").
Proof.
  split; [vm_compute; discriminate|]. split; [reflexivity|].
  vm_compute. discriminate.
Qed.

Lemma aadhaar_column_normalised_witness :
  NoDup (map fst ([] ++ (Aadhaar, {| dtype_of := object;
                                     values := [VStr (lit "1234 5678 9012");
                                                VStr (lit "12-34")] |}) :: []))
  /\ map_outcome py_str [VStr (lit "1234 5678 9012"); VStr (lit "12-34")]
     = Ret [lit "1234 5678 9012"; lit "12-34"]
  /\ normalize_aadhaar no_unicode_digit cards initial_world
     = (Ret {| nrows := 2;
               columns :=
                 [ (Aadhaar,
                    {| dtype_of := object;
                       values := [VStr (lit "1234-5678-9012");
                                  VStr (lit "1234")] |}) ] |},
        initial_world)
  /\ List.length (strip_non_digits no_unicode_digit (lit "1234 5678 9012")) = 12
  /\ aadhaar_format (strip_non_digits no_unicode_digit (lit "1234 5678 9012"))
     = lit "1234" ++ lit "-" ++ lit "5678" ++ lit "-" ++ lit "9012"
  /\ List.length (strip_non_digits no_unicode_digit (lit "12-34")) <> 12
  /\ aadhaar_format (strip_non_digits no_unicode_digit (lit "12-34"))
     = strip_non_digits no_unicode_digit (lit "12-34").
Proof.
  assert (Hnd : NoDup (map fst ([] ++ (Aadhaar, {| dtype_of := object;
                                     values := [VStr (lit "1234 5678 9012");
                                                VStr (lit "12-34")] |}) :: []))).
  { repeat constructor. simpl. intros []. }
  assert (Hstr : map_outcome py_str [VStr (lit "1234 5678 9012"); VStr (lit "12-34")]
                 = Ret [lit "1234 5678 9012"; lit "12-34"]) by reflexivity.
  assert (H12 : List.length (strip_non_digits no_unicode_digit (lit "1234 5678 9012")) = 12)
    by reflexivity.
  assert (H4 : List.length (strip_non_digits no_unicode_digit (lit "12-34")) <> 12)
    by (vm_compute; discriminate).
  destruct (aadhaar_column_normalised nat no_unicode_digit 2 [] [] _ _
              initial_world Hnd Hstr) as [E Hall].
  split; [exact Hnd|]. split; [exact Hstr|]. split; [exact E|].
  split; [exact H12|]. split.
  - destruct (Hall (lit "1234 5678 9012") (or_introl eq_refl)) as (_ & Hf & _).
    destruct (Hf H12) as (Ef & _). rewrite Ef. reflexivity.
  - split; [exact H4|].
    destruct (Hall (lit "12-34") (or_intror (or_introl eq_refl))) as (_ & _ & Hf).
    exact (Hf H4).
Defined.

Lemma aadhaar_column_coerced_then_redacted_witness :
  ((extension identity_lower (lit "people.csv") = lit "csv"
    /\ load_people (lit "people.csv") = Ret people)
   \/ ((extension identity_lower (lit "people.csv") = lit "xls"
        \/ extension identity_lower (lit "people.csv") = lit "xlsx")
       /\ load_people (lit "people.csv") = Ret people))
  /\ NoDup (labels people)
  /\ map_outcome py_str [VInt 123456789012; VInt 42]
     = Ret [lit "123456789012"; lit "42"]
  /\ exists w',
       anonymize_file (whole_text_detection "AADHAAR") tagged_digest
         no_unicode_digit identity_lower load_people load_people no_pages
         (lit "people.csv") None initial_world
       = (Ret (Frame
                 {| nrows := 2;
                    columns :=
                      [ (lit "Aadhaar",
                         {| dtype_of := object;
                            values := [VStr (lit "xyz123:1234-5678-9012");
                                       VStr (lit "xyz123:42")] |});
                        (lit "age",
                         {| dtype_of := int64; values := [VInt 31; VInt 27] |});
                        (lit "name",
                         {| dtype_of := object;
                            values := [VStr (lit "xyz123:Asha");
                                       VStr (lit "xyz123:None")] |}) ] |}),
          w').
Proof.
  assert (Hload : (extension identity_lower (lit "people.csv") = lit "csv"
                   /\ load_people (lit "people.csv") = Ret people)
                  \/ ((extension identity_lower (lit "people.csv") = lit "xls"
                       \/ extension identity_lower (lit "people.csv") = lit "xlsx")
                      /\ load_people (lit "people.csv") = Ret people)).
  { left. split; reflexivity. }
  assert (Hnd : NoDup (labels people)).
  { repeat constructor; simpl; intuition discriminate. }
  assert (Hstr : map_outcome py_str [VInt 123456789012; VInt 42]
                 = Ret [lit "123456789012"; lit "42"]) by reflexivity.
  split; [exact Hload|]. split; [exact Hnd|]. split; [exact Hstr|].
  destruct (aadhaar_column_coerced_then_redacted nat
              (whole_text_detection "AADHAAR") tagged_digest no_unicode_digit
              identity_lower load_people load_people no_pages
              (lit "people.csv") None initial_world people
              []
              [ (lit "age", {| dtype_of := int64; values := [VInt 31; VInt 27] |});
                (lit "name", {| dtype_of := object;
                                values := [VStr (lit " Asha "); VNone] |}) ]
              {| dtype_of := int64; values := [VInt 123456789012; VInt 42] |}
              [lit "123456789012"; lit "42"]
              Hload Hnd eq_refl Hstr) as [w' E].
  exists w'. exact E.
Defined.

(** * The further properties on sample runs *)

Lemma anonymize_text_calls_witness :
  py_str (VInt 42) = Ret (lit "42")
  /\ existsb (fun c => negb (isspace c)) (lit "42") = true
  /\ _anonymize_text (whole_text_detection "PHONE_NUMBER") tagged_digest
       (VInt 42) initial_world
     = (Ret (VStr (lit "xyz123:42")),
        extend initial_world []
          [Analyze (lit "42") "en" ENTITIES;
           Anonymize (lit "42")
             [{| entity_type := "PHONE_NUMBER"; start := 0; end_ := 2 |}]
             OPERATORS]).
Proof.
  split; [reflexivity|]. split; [reflexivity|].
  exact (proj2 (anonymize_text_calls nat (whole_text_detection "PHONE_NUMBER")
                  tagged_digest (VInt 42) (lit "42") initial_world
                  eq_refl eq_refl)).
Defined.

Lemma anonymize_text_of_stripped_form_witness :
  py_str (VInt 42) = Ret (lit "42")
  /\ py_str (VStr (lit " 42 ")) = Ret (lit " 42 ")
  /\ strip (lit "42") = strip (lit " 42 ")
  /\ _anonymize_text (whole_text_detection "PHONE_NUMBER") tagged_digest
       (VInt 42) initial_world
     = _anonymize_text (whole_text_detection "PHONE_NUMBER") tagged_digest
         (VStr (lit " 42 ")) initial_world.
Proof.
  split; [reflexivity|]. split; [reflexivity|]. split; [reflexivity|].
  exact (proj1 (anonymize_text_of_stripped_form nat
                  (whole_text_detection "PHONE_NUMBER") tagged_digest
                  (VInt 42) (VStr (lit " 42 ")) (lit "42") (lit " 42 ")
                  initial_world eq_refl eq_refl eq_refl)).
Defined.

Lemma anonymize_dataframe_cells_witness :
  NoDup (labels people)
  /\ exists calls,
       anonymize_dataframe (whole_text_detection "PERSON") tagged_digest
         people initial_world
       = (Ret {| nrows := 2;
                 columns :=
                   map (redact_column (whole_text_detection "PERSON")
                          tagged_digest 0) (columns people) |},
          extend initial_world [AnonymizingColumn (lit "name")] calls).
Proof.
  assert (H : NoDup (labels people)).
  { repeat constructor; simpl; intuition discriminate. }
  split; [exact H|].
  exact (proj1 (anonymize_dataframe_cells nat (whole_text_detection "PERSON")
                  tagged_digest people initial_world H)).
Defined.

Lemma anonymize_dataframe_repeated_label_witness :
  columns twice_id
  = [] ++ (lit "id", {| dtype_of := int64; values := [VInt 1] |})
       :: [] ++ (lit "id", {| dtype_of := int64; values := [VInt 2] |}) :: []
  /\ exists w',
       anonymize_dataframe no_detection tagged_digest twice_id initial_world
       = (Raise (AttributeError "'DataFrame' object has no attribute 'dtype'"), w')
       /\ files w' = files initial_world.
Proof.
  split; [reflexivity|].
  exact (anonymize_dataframe_repeated_label nat no_detection tagged_digest
           twice_id initial_world (lit "id") _ _ [] [] [] eq_refl).
Defined.

Lemma normalize_aadhaar_idempotent_witness :
  NoDup (map fst ([] ++ (Aadhaar, {| dtype_of := object;
                                     values := [VStr (lit "1234 5678 9012");
                                                VStr (lit "12-34")] |}) :: []))
  /\ map_outcome py_str [VStr (lit "1234 5678 9012"); VStr (lit "12-34")]
     = Ret [lit "1234 5678 9012"; lit "12-34"]
  /\ exists df1,
       normalize_aadhaar no_unicode_digit cards initial_world
       = (Ret df1, initial_world)
       /\ normalize_aadhaar no_unicode_digit df1 initial_world
          = (Ret df1, initial_world).
Proof.
  assert (Hnd : NoDup (map fst ([] ++ (Aadhaar, {| dtype_of := object;
                                     values := [VStr (lit "1234 5678 9012");
                                                VStr (lit "12-34")] |}) :: []))).
  { repeat constructor. simpl. intros []. }
  split; [exact Hnd|]. split; [reflexivity|].
  exact (normalize_aadhaar_idempotent nat no_unicode_digit 2 [] [] _ _
           initial_world Hnd eq_refl).
Defined.

Lemma loader_failure_propagates_witness :
  (extension identity_lower (lit "gone.csv") = lit "csv"
   /\ missing_file (lit "gone.csv") = Raise (OtherException "FileNotFoundError"))
  /\ anonymize_file no_detection tagged_digest no_unicode_digit identity_lower
       missing_file missing_file no_pages
       (lit "gone.csv") (Some (lit "out.csv")) initial_world
     = (Raise (OtherException "FileNotFoundError"),
        extend initial_world [ReadingFrom (lit "gone.csv")] []).
Proof.
  assert (H : extension identity_lower (lit "gone.csv") = lit "csv"
              /\ missing_file (lit "gone.csv")
                 = Raise (OtherException "FileNotFoundError")).
  { split; reflexivity. }
  split; [exact H|].
  exact (loader_failure_propagates nat no_detection tagged_digest
           no_unicode_digit identity_lower missing_file missing_file no_pages
           (lit "gone.csv") (Some (lit "out.csv")) initial_world
           (OtherException "FileNotFoundError") (or_introl H)).
Defined.

Lemma extension_after_last_dot_witness :
  ~ In 46%N (lit "CSV")
  /\ forallb is_ascii (lit "CSV") = true
  /\ extension identity_lower (lit "data/v1.2/Report" ++ 46%N :: lit "CSV")
     = lit "csv"
  /\ ~ In 46%N (lit "csv")
  /\ extension identity_lower (lit "csv") = lit "csv".
Proof.
  assert (H1 : ~ In 46%N (lit "CSV")).
  { simpl. intuition discriminate. }
  assert (H2 : ~ In 46%N (lit "csv")).
  { simpl. intuition discriminate. }
  destruct (extension_after_last_dot identity_lower) as (Ha & Hb & Hc).
  split; [exact H1|]. split; [reflexivity|]. split.
  - rewrite (Ha (lit "data/v1.2/Report") (lit "CSV") H1).
    rewrite (Hc (lit "CSV") eq_refl). reflexivity.
  - split; [exact H2|]. rewrite (Hb (lit "csv") H2).
    rewrite (Hc (lit "csv") eq_refl). reflexivity.
Defined.

Lemma text_file_path_witness :
  occurs (lit ".pdf") (lit "result.txt") = false
  /\ replace (lit ".pdf") (lit "_anonymized.txt") (lit "result.txt")
     = lit "result.txt"
  /\ ~ In 46%N (lit "out/report")
  /\ replace (lit ".pdf") (lit "_anonymized.txt") (lit "out/report" ++ lit ".pdf")
     = lit "out/report" ++ lit "_anonymized.txt".
Proof.
  assert (H : ~ In 46%N (lit "out/report")).
  { simpl. intuition discriminate. }
  destruct text_file_path as [Ha Hb].
  split; [reflexivity|]. split; [exact (Ha (lit "result.txt") eq_refl)|].
  split; [exact H|]. exact (Hb (lit "out/report") H).
Defined.

Lemma table_written_is_table_returned_witness :
  exists df' w',
    anonymize_file no_detection tagged_digest no_unicode_digit identity_lower
      load_staff load_staff no_pages
      (lit "staff.csv") (Some (lit "out.xlsx")) initial_world
    = (Ret (Frame df'), w')
    /\ lit "out.xlsx" <> []
    /\ files w' = files initial_world ++ [(lit "out.xlsx", CsvFile df')].
Proof.
  eexists. eexists.
  assert (H : anonymize_file no_detection tagged_digest no_unicode_digit
                identity_lower load_staff load_staff no_pages
                (lit "staff.csv") (Some (lit "out.xlsx")) initial_world
              = (Ret (Frame (match fst (anonymize_file no_detection tagged_digest
                                         no_unicode_digit identity_lower load_staff
                                         load_staff no_pages (lit "staff.csv")
                                         (Some (lit "out.xlsx")) initial_world) with
                             | Ret (Frame d) => d
                             | _ => staff
                             end)),
                 snd (anonymize_file no_detection tagged_digest no_unicode_digit
                        identity_lower load_staff load_staff no_pages
                        (lit "staff.csv") (Some (lit "out.xlsx")) initial_world))).
  { vm_compute. reflexivity. }
  split; [exact H|]. split; [discriminate|].
  exact (proj1 (table_written_is_table_returned nat no_detection tagged_digest
                  no_unicode_digit identity_lower load_staff load_staff no_pages
                  (lit "staff.csv") (Some (lit "out.xlsx")) initial_world _ _ H)
               (lit "out.xlsx") eq_refl ltac:(discriminate)).
Defined.

Lemma text_written_is_text_returned_witness :
  anonymize_file no_detection tagged_digest no_unicode_digit identity_lower
    load_staff load_staff one_page
    (lit "scan.pdf") (Some (lit "scan.pdf")) initial_world
  = (Ret (Text (VStr (lit "Asha"))),
     snd (anonymize_file no_detection tagged_digest no_unicode_digit identity_lower
            load_staff load_staff one_page
            (lit "scan.pdf") (Some (lit "scan.pdf")) initial_world))
  /\ lit "scan.pdf" <> []
  /\ exists t,
       VStr (lit "Asha") = VStr t
       /\ files (snd (anonymize_file no_detection tagged_digest no_unicode_digit
                        identity_lower load_staff load_staff one_page
                        (lit "scan.pdf") (Some (lit "scan.pdf")) initial_world))
          = files initial_world
            ++ [(replace (lit ".pdf") (lit "_anonymized.txt") (lit "scan.pdf"),
                 TextFile t)].
Proof.
  assert (H : anonymize_file no_detection tagged_digest no_unicode_digit
                identity_lower load_staff load_staff one_page
                (lit "scan.pdf") (Some (lit "scan.pdf")) initial_world
              = (Ret (Text (VStr (lit "Asha"))),
                 snd (anonymize_file no_detection tagged_digest no_unicode_digit
                        identity_lower load_staff load_staff one_page
                        (lit "scan.pdf") (Some (lit "scan.pdf")) initial_world))).
  { vm_compute. reflexivity. }
  split; [exact H|]. split; [discriminate|].
  destruct (text_written_is_text_returned nat no_detection tagged_digest
              no_unicode_digit identity_lower load_staff load_staff one_page
              (lit "scan.pdf") (Some (lit "scan.pdf")) initial_world _ _ H)
    as (t & Et & Hw & _).
  exists t. split; [exact Et|].
  exact (Hw (lit "scan.pdf") eq_refl ltac:(discriminate)).
Defined.

Lemma no_aadhaar_column_no_normalisation_witness :
  ((extension identity_lower (lit "staff.csv") = lit "csv"
    /\ load_staff (lit "staff.csv") = Ret staff)
   \/ ((extension identity_lower (lit "staff.csv") = lit "xls"
        \/ extension identity_lower (lit "staff.csv") = lit "xlsx")
       /\ load_staff (lit "staff.csv") = Ret staff))
  /\ NoDup (labels staff)
  /\ ~ In Aadhaar (labels staff)
  /\ exists w',
       anonymize_file no_detection tagged_digest no_unicode_digit identity_lower
         load_staff load_staff no_pages (lit "staff.csv") None initial_world
       = (Ret (Frame staff), w').
Proof.
  assert (Hload : (extension identity_lower (lit "staff.csv") = lit "csv"
                   /\ load_staff (lit "staff.csv") = Ret staff)
                  \/ ((extension identity_lower (lit "staff.csv") = lit "xls"
                       \/ extension identity_lower (lit "staff.csv") = lit "xlsx")
                      /\ load_staff (lit "staff.csv") = Ret staff)).
  { left. split; reflexivity. }
  assert (Hnd : NoDup (labels staff)).
  { repeat constructor; simpl; intuition discriminate. }
  assert (Hno : ~ In Aadhaar (labels staff)).
  { simpl. intuition discriminate. }
  split; [exact Hload|]. split; [exact Hnd|]. split; [exact Hno|].
  destruct (no_aadhaar_column_no_normalisation nat no_detection tagged_digest
              no_unicode_digit identity_lower load_staff load_staff no_pages
              (lit "staff.csv") None initial_world staff Hload Hnd Hno)
    as [w' E].
  exists w'. exact E.
Defined.

Lemma hash_pii_token_witness :
  py_str (VInt 42) = Ret (lit "42")
  /\ existsb is_surrogate (lit "42") = false
  /\ hash_pii (VInt 42) = Ret (lit "73475cb40a568e8d")
  /\ hash_pii (VStr (lit "42")) = Ret (lit "73475cb40a568e8d").
Proof.
  split; [reflexivity|]. split; [reflexivity|].
  destruct (hash_pii_token (VInt 42) (lit "42") eq_refl eq_refl)
    as (h & Hh & _ & _ & Hs).
  assert (E : h = lit "73475cb40a568e8d").
  { assert (Hc : hash_pii (VInt 42) = Ret (lit "73475cb40a568e8d"))
      by (vm_compute; reflexivity).
    rewrite Hc in Hh. now injection Hh as <-. }
  subst h. split; [exact Hh|exact Hs].
Defined.

Lemma hash_pii_failures_witness :
  py_str (VObj 7 (Raise (OtherException "RuntimeError")))
  = Raise (OtherException "RuntimeError")
  /\ hash_pii (VObj 7 (Raise (OtherException "RuntimeError")))
     = Raise (OtherException "RuntimeError")
  /\ existsb is_surrogate [97; 55357]%N = true
  /\ hash_pii (VStr [97; 55357]%N) = Raise (OtherException "UnicodeEncodeError").
Proof.
  split; [reflexivity|]. split.
  - exact (proj1 (hash_pii_failures (VObj 7 (Raise (OtherException "RuntimeError"))))
                 _ eq_refl).
  - split; [reflexivity|].
    exact (proj1 (proj2 (hash_pii_failures (VStr [97; 55357]%N)))
                 [97; 55357]%N eq_refl eq_refl).
Defined.

Lemma phone_pattern_within_bank_pattern_witness :
  fullmatch no_unicode_digit no_unicode_digit (pattern local_phone_recognizer)
    (lit "9876543210") = true
  /\ fullmatch no_unicode_digit no_unicode_digit (pattern bank_recognizer)
       (lit "9876543210") = true.
Proof.
  assert (H : fullmatch no_unicode_digit no_unicode_digit
                (pattern local_phone_recognizer) (lit "9876543210") = true).
  { apply (proj1 (phone_pattern_within_bank_pattern no_unicode_digit
                    no_unicode_digit (lit "9876543210"))).
    split; reflexivity. }
  split; [exact H|].
  exact (proj1 (proj2 (proj2 (phone_pattern_within_bank_pattern no_unicode_digit
                                no_unicode_digit (lit "9876543210")))) H).
Defined.

Lemma normalised_aadhaar_matches_pattern_witness :
  List.length (strip_non_digits no_unicode_digit (lit "1234 5678 9012")) = 12
  /\ aadhaar_format (strip_non_digits no_unicode_digit (lit "1234 5678 9012"))
     = lit "1234-5678-9012"
  /\ fullmatch no_unicode_digit no_unicode_digit (pattern aadhar_recognizer)
       (aadhaar_format (strip_non_digits no_unicode_digit (lit "1234 5678 9012")))
     = true
  /\ fullmatch no_unicode_digit no_unicode_digit (pattern aadhar_recognizer)
       (strip_non_digits no_unicode_digit (lit "1234 5678 9012"))
     = false.
Proof.
  split; [reflexivity|]. split; [reflexivity|].
  destruct (normalised_aadhaar_matches_pattern no_unicode_digit no_unicode_digit
              (lit "1234 5678 9012") eq_refl) as (H1 & _ & _ & H4 & _).
  split; [exact H1|exact H4].
Defined.

Lemma ip_pattern_any_groups_witness :
  fullmatch no_unicode_digit no_unicode_digit (pattern ip_recognizer)
    (lit "999" ++ lit "." ++ lit "0" ++ lit "." ++ lit "42" ++ lit "." ++ lit "777")
  = true.
Proof.
  apply (ip_pattern_any_groups no_unicode_digit no_unicode_digit
           (lit "999") (lit "0") (lit "42") (lit "777"));
    try reflexivity; simpl; lia.
Defined.

Lemma document_without_text_witness :
  extension identity_lower (lit "scan.pdf") = lit "pdf"
  /\ blank_pages (lit "scan.pdf") = Ret [None; Some []]
  /\ Forall (fun page => or_empty page = []) [None; Some []]
  /\ exists w',
       anonymize_file (whole_text_detection "PERSON") tagged_digest
         no_unicode_digit identity_lower load_staff load_staff blank_pages
         (lit "scan.pdf") None initial_world
       = (Ret (Text (VStr [])), w')
       /\ engine_log w' = engine_log initial_world.
Proof.
  assert (Hall : Forall (fun page => or_empty page = []) [None; Some []]).
  { repeat constructor. }
  split; [reflexivity|]. split; [reflexivity|]. split; [exact Hall|].
  exact (document_without_text nat (whole_text_detection "PERSON") tagged_digest
           no_unicode_digit identity_lower load_staff load_staff blank_pages
           (lit "scan.pdf") None initial_world [None; Some []]
           eq_refl eq_refl Hall).
Defined.
